(** * StudyOS study planner: a shallow embedding of [study_planner.py]

    The script is a Streamlit page: it is re-run from top to bottom on every
    user interaction, and the only state that survives a run is
    [st.session_state], which holds two Python lists, ['tasks'] and
    ['resources'].  The embedding follows that shape:

    - [session_state] is the pair of lists; every button handler is a
      function from the widget values and the old state to what is shown
      and the new state;
    - pandas frames built from the task list are modelled with their column
      index, so that [df['Status']] is fallible as it is in pandas;
    - Python's [int / int], [float * int] and [int(float)] are modelled on
      IEEE binary64 through the Standard Library's [SpecFloat];
    - [run] folds a list of user events over the initial state and gives the
      reachable states;
    - the Resource Hub page is modelled top to bottom, with the loops that
      list the links and the videos of the selected subject; the link loop
      is fallible, since the video dicts have no ['Desc'] key, and so are
      the calls of [st.video] and [st.image], which are parameters of the
      model;
    - what [st.data_editor] returns is a value of the run: the script drops
      it;
    - the session dict itself is a [gmap], for the initialisation that runs
      at the top of every run. *)

From Stdlib Require Import ZArith Lia List Bool Ascii String Permutation Sorted.
From Stdlib Require Import Floats.SpecFloat.
From stdpp Require Import base list strings gmap.

Open Scope Z_scope.

(** ** Python values used by the script *)

Module Py.

(** What a statement can raise in the parts of the script modelled here. *)
Inductive exn :=
| KeyError (key : string)
| ZeroDivisionError
| OverflowError
| ValueError
| MediaFileStorageError
| UnidentifiedImageError.

Inductive result (A : Type) :=
| Ok (a : A)
| Raise (e : exn).
Arguments Ok {A} a.
Arguments Raise {A} e.

(** A raised exception skips the rest of the block. *)
#[global] Instance result_ret : MRet result := fun A a => Ok a.
#[global] Instance result_bind : MBind result := fun A B k r =>
  match r with
  | Ok a => k a
  | Raise e => Raise e
  end.

(** Truth value of a [str]: only the empty string is false. *)
Definition truthy (s : string) : bool :=
  match s with
  | EmptyString => false
  | String _ _ => true
  end.

(** [len] of a list, a Python [int]. *)
Definition len {A} (l : list A) : Z := Z.of_nat (length l).

(** [datetime.date] *)
Record date := { year : Z; month : Z; day : Z }.

End Py.

(** ** The session state (lines 12-15) *)

(** A task is the dict literal of lines 99-106; the keys are fixed, so it is a
    record.  [Due_Date] stands for the key ["Due Date"]. *)
Record Task := {
  Subject : string;
  Chapter : string;
  Topic : string;
  Due_Date : Py.date;
  Priority : string;
  Status : string
}.

(** A resource is one of the two dict literals of lines 165-170 and 183-187;
    the video literal has no ["Desc"] key. *)
Record Resource := {
  res_Subject : string;
  res_Type : string;
  res_Content : string;
  res_Desc : option string
}.

Record session_state := {
  tasks : list Task;
  resources : list Resource
}.

(** Lines 12-15: both lists start empty. *)
Definition initial_state : session_state :=
  {| tasks := []; resources := [] |}.

(** What a handler shows: [st.success], [st.error], [st.info]. *)
Inductive feedback :=
| st_success (msg : string)
| st_error (msg : string)
| st_info (msg : string).

(** ** Task Planner page: the Add Task button (lines 97-110) *)

Definition new_task (subject chapter topic : string) (due_date : Py.date)
    (priority : string) : Task :=
  {| Subject := subject; Chapter := chapter; Topic := topic;
     Due_Date := due_date; Priority := priority; Status := "Pending" |}.

Definition add_task_button (subject chapter topic : string)
    (due_date : Py.date) (priority : string) (st : session_state)
    : feedback * session_state :=
  if Py.truthy subject && Py.truthy chapter then
    (st_success "Task Added!",
     {| tasks := tasks st ++ [new_task subject chapter topic due_date priority];
        resources := resources st |})
  else
    (st_error "Please fill in at least Subject and Chapter.", st).

(** ** Task Planner page: the To-Do list (lines 116-144) *)

(** The task [t] with another status. *)
Definition set_Status (s : string) (t : Task) : Task :=
  {| Subject := Subject t; Chapter := Chapter t; Topic := Topic t;
     Due_Date := Due_Date t; Priority := Priority t; Status := s |}.

(** Lines 120-122: the rows shown, in store order. *)
Definition list_tasks (filter_status : string) (st : session_state) : list Task :=
  if decide (filter_status = "All") then tasks st
  else filter (fun t => Status t = filter_status) (tasks st).

(** Lines 116-144.  [st.data_editor] is a call into the library: what it
    gives back, the rows of a frame or an exception, depends on what the
    user did in the table and is a value of the run, like the text of an
    input field.  The script binds it to [edited_df] and drops it: lines
    141-142 only carry the comment that nothing is synced back, so the state
    that leaves the page is the state that entered it. *)
Definition todo_list (filter_status : string) (edited_df : Py.result (list Task))
    (st : session_state) : option (Py.result (list Task)) * session_state :=
  match tasks st with
  | [] => (None, st)
  | _ :: _ =>
      let df_tasks := list_tasks filter_status st in
      (Some edited_df, st)
  end.

(** ** Resource Hub page: Save Link (lines 164-171), Add Video (182-187) *)

Definition save_link_button (selected_subject link_url link_desc : string)
    (st : session_state) : feedback * session_state :=
  (st_success "Link Saved!",
   {| tasks := tasks st;
      resources := resources st ++
        [{| res_Subject := selected_subject; res_Type := "Link";
            res_Content := link_url; res_Desc := Some link_desc |}] |}).

Definition add_video_button (selected_subject video_url : string)
    (st : session_state) : session_state :=
  {| tasks := tasks st;
     resources := resources st ++
       [{| res_Subject := selected_subject; res_Type := "Video";
           res_Content := video_url; res_Desc := None |}] |}.

(** ** get_subjects (lines 22-25) *)

(** [list(set([...]))]: the set is a [gset], and [elements] lists it in an
    order that the set fixes and the script does not control. *)
Definition default_subjects : list string :=
  ["Math"; "Physics"; "History"; "Biology"].

Definition get_subjects (st : session_state) : list string :=
  match tasks st with
  | [] => default_subjects
  | _ :: _ => elements (list_to_set (map Subject (tasks st)) : gset string)
  end.

(** ** One run of the script per user event *)

Inductive event :=
| Click_Add_Task (subject chapter topic : string) (due_date : Py.date)
    (priority : string)
| Use_Todo_List (filter_status : string) (edited_df : Py.result (list Task))
| Click_Save_Link (selected_subject link_url link_desc : string)
| Click_Add_Video (selected_subject video_url : string)
| Open_Dashboard.

Definition step (st : session_state) (e : event) : session_state :=
  match e with
  | Click_Add_Task subject chapter topic due_date priority =>
      snd (add_task_button subject chapter topic due_date priority st)
  | Use_Todo_List filter_status edited_df =>
      snd (todo_list filter_status edited_df st)
  | Click_Save_Link selected_subject link_url link_desc =>
      snd (save_link_button selected_subject link_url link_desc st)
  | Click_Add_Video selected_subject video_url =>
      add_video_button selected_subject video_url st
  | Open_Dashboard => st
  end.

Definition run (events : list event) : session_state :=
  fold_left step events initial_state.

(** ** Python floats: [int / int], [float * int], [int(float)] *)

Module PyFloat.

(** A Python [float] is an IEEE binary64 number. *)
Definition prec : Z := 53.
Definition emax : Z := 1024.
Definition float := spec_float.

(** An [int] as the pair (mantissa, exponent 0): its exact value. *)
Definition exact (n : Z) : float :=
  match n with
  | Z0 => S754_zero false
  | Zpos p => S754_finite false p 0
  | Zneg p => S754_finite true p 0
  end.

(** [float(n)]: the binary64 number nearest to [n]. *)
Definition of_int (n : Z) : float := binary_normalize prec emax n 0 false.

(** [a / b] on two [int]s: the exact quotient rounded once to binary64;
    a zero divisor raises, and so does a quotient beyond the largest float. *)
Definition true_div (a b : Z) : Py.result float :=
  if b =? 0 then Py.Raise Py.ZeroDivisionError
  else match SFdiv prec emax (exact a) (exact b) with
       | S754_infinity _ => Py.Raise Py.OverflowError
       | q => Py.Ok q
       end.

(** [x * n] with [x] a [float] and [n] an [int]: [n] is converted first. *)
Definition mul_int (x : float) (n : Z) : float := SFmul prec emax x (of_int n).

(** [int(x)]: truncation toward zero; infinities and NaN raise. *)
Definition int (x : float) : Py.result Z :=
  match x with
  | S754_zero _ => Py.Ok 0
  | S754_finite s m (Zneg k) => Py.Ok (cond_Zopp s (Z.pos m / 2 ^ Z.pos k))
  | S754_finite s m e => Py.Ok (cond_Zopp s (Z.pos m * 2 ^ e))
  | S754_infinity _ => Py.Raise Py.OverflowError
  | S754_nan => Py.Raise Py.ValueError
  end.

End PyFloat.

(** ** pandas: frames over the task list, and [value_counts] *)

Module Pandas.

(** A cell of a task frame: text, or the date of the ["Due Date"] column. *)
Inductive value :=
| str (s : string)
| date (d : Py.date).

#[global] Instance date_eq_dec : EqDecision Py.date.
Proof. solve_decision. Defined.
#[global] Instance value_eq_dec : EqDecision value.
Proof. solve_decision. Defined.

(** [t[key]] on a task dict. *)
Definition get (t : Task) (key : string) : option value :=
  if decide (key = "Subject") then Some (str (Subject t))
  else if decide (key = "Chapter") then Some (str (Chapter t))
  else if decide (key = "Topic") then Some (str (Topic t))
  else if decide (key = "Due Date") then Some (date (Due_Date t))
  else if decide (key = "Priority") then Some (str (Priority t))
  else if decide (key = "Status") then Some (str (Status t))
  else None.

Definition task_keys : list string :=
  ["Subject"; "Chapter"; "Topic"; "Due Date"; "Priority"; "Status"].

Record DataFrame := { columns : list string; rows : list Task }.
Definition Series := list value.

(** [pd.DataFrame(data)] on a list of dicts: the columns are the keys of
    the dicts; on the empty list the frame has no rows and no columns. *)
Definition DataFrame_of (data : list Task) : DataFrame :=
  match data with
  | [] => {| columns := []; rows := [] |}
  | _ :: _ => {| columns := task_keys; rows := data |}
  end.

(** [len(df)] *)
Definition len (df : DataFrame) : Z := Py.len (rows df).

(** [df[col]]: a column that is not in the frame raises [KeyError]. *)
Definition getitem (df : DataFrame) (col : string) : Py.result Series :=
  if decide (col ∈ columns df) then Py.Ok (omap (fun t => get t col) (rows df))
  else Py.Raise (Py.KeyError col).

(** [series == v]: the boolean mask. *)
Definition eq_mask (s : Series) (v : value) : list bool :=
  map (fun x => bool_decide (x = v)) s.

(** [df[mask]]: the rows whose mask entry is true, in frame order. *)
Fixpoint select (l : list Task) (mask : list bool) : list Task :=
  match l, mask with
  | t :: l', b :: mask' => if b then t :: select l' mask' else select l' mask'
  | _, _ => []
  end.

Definition getitem_mask (df : DataFrame) (mask : list bool) : DataFrame :=
  {| columns := columns df; rows := select (rows df) mask |}.

(** The hash-table pass of [value_counts]: one counter per distinct value,
    kept in the order in which the values are first met. *)
Fixpoint count_value (v : value) (acc : list (value * Z)) : list (value * Z) :=
  match acc with
  | [] => [(v, 1)]
  | (k, n) :: acc' =>
      if decide (v = k) then (k, n + 1) :: acc' else (k, n) :: count_value v acc'
  end.

Definition tally (s : Series) : list (value * Z) :=
  fold_left (fun acc v => count_value v acc) s [].

(** The sort of [value_counts] ([sort=True], [ascending=False]): by count,
    largest first.  pandas leaves the order among equal counts open; here
    the sort is stable, so equal counts stay in first-met order. *)
Fixpoint insert_desc (p : value * Z) (l : list (value * Z)) : list (value * Z) :=
  match l with
  | [] => [p]
  | q :: l' => if snd p <? snd q then q :: insert_desc p l' else p :: q :: l'
  end.

Definition sort_desc (l : list (value * Z)) : list (value * Z) :=
  fold_right insert_desc [] l.

(** [series.value_counts().reset_index()]: rows (value, count). *)
Definition value_counts (s : Series) : list (value * Z) :=
  sort_desc (tally s).

End Pandas.

(** ** Dashboard page (lines 28-75) *)

Record Kpis := {
  total_tasks : Z;
  completed : Z;
  pending : Z;
  completion_rate : Z
}.

(** Lines 46-48: [total_tasks], [completed], [pending]. *)
Definition task_counts (df : Pandas.DataFrame) : Py.result (Z * Z * Z) :=
  let total_tasks := Pandas.len df in
  status ← Pandas.getitem df "Status";
  let completed :=
    Pandas.len (Pandas.getitem_mask df (Pandas.eq_mask status (Pandas.str "Done"))) in
  let pending := total_tasks - completed in
  Py.Ok (total_tasks, completed, pending).

(** Line 49: [int((completed / total_tasks) * 100) if total_tasks > 0 else 0]. *)
Definition completion_rate_of (completed total_tasks : Z) : Py.result Z :=
  if 0 <? total_tasks then
    q ← PyFloat.true_div completed total_tasks;
    PyFloat.int (PyFloat.mul_int q 100)
  else Py.Ok 0.

(** Lines 46-49, on the frame [df]. *)
Definition compute_kpis (df : Pandas.DataFrame) : Py.result Kpis :=
  counts ← task_counts df;
  let '(total_tasks, completed, pending) := counts in
  completion_rate ← completion_rate_of completed total_tasks;
  Py.Ok {| total_tasks := total_tasks; completed := completed;
           pending := pending; completion_rate := completion_rate |}.

(** Lines 65-66 and 72-73. *)
Definition subj_counts (df : Pandas.DataFrame) : Py.result (list (Pandas.value * Z)) :=
  subject ← Pandas.getitem df "Subject";
  Py.Ok (Pandas.value_counts subject).

Definition status_counts (df : Pandas.DataFrame) : Py.result (list (Pandas.value * Z)) :=
  status ← Pandas.getitem df "Status";
  Py.Ok (Pandas.value_counts status).

(** What the page shows.  With no task there is a welcome message and three
    fixed demo metrics (label, value, delta); otherwise the KPIs and the rows
    behind the bar chart and the pie chart. *)
Inductive dashboard_view :=
| Demo_View (welcome : feedback) (metrics : list (string * string * string))
| Real_View (kpis : Kpis) (bar pie : list (Pandas.value * Z)).

Definition demo_metrics : list (string * string * string) :=
  [("Pending Tasks", "5", "-2"); ("Study Hours", "12.5", "+3.2");
   ("Next Exam", "2 Days", "Math")].

Definition dashboard (st : session_state) : Py.result dashboard_view :=
  match tasks st with
  | [] =>
      Py.Ok (Demo_View
        (st_info "👋 Welcome! Go to the 'Task Planner' tab to add your first study goal.")
        demo_metrics)
  | _ :: _ =>
      let df := Pandas.DataFrame_of (tasks st) in
      kpis ← compute_kpis df;
      bar ← subj_counts df;
      pie ← status_counts df;
      Py.Ok (Real_View kpis bar pie)
  end.

(** ** Vocabulary of the specification

    These definitions follow the words of the specification, not the script;
    the theorems below compare the script with them. *)

Module Spec.

(** Whitespace as [str.strip] sees it in ASCII: space, tab, newline,
    vertical tab, form feed, carriage return. *)
Definition is_space (a : ascii) : bool :=
  let n := nat_of_ascii a in
  ((9 <=? n)%nat && (n <=? 13)%nat) || (n =? 32)%nat.

Fixpoint all_space (s : string) : bool :=
  match s with
  | EmptyString => true
  | String a s' => is_space a && all_space s'
  end.

(** "empty or whitespace-only" *)
Definition blank (s : string) : bool := all_space s.

(** "first-seen order of the distinct values" *)
Fixpoint first_seen (l : list Pandas.value) : list Pandas.value :=
  match l with
  | [] => []
  | v :: l' => v :: filter (fun x => x ≠ v) (first_seen l')
  end.

(** "the number of occurrences" of a value *)
Definition occurrences (v : Pandas.value) (l : list Pandas.value) : Z :=
  Z.of_nat (length (filter (fun x => x = v) l)).

(** "one (key, count) pair per distinct value with its number of
    occurrences", the pairs "in first-seen order" *)
Definition first_seen_counts (l : list Pandas.value) : list (Pandas.value * Z) :=
  map (fun k => (k, occurrences k l)) (first_seen l).

(** [p] may stand before [q] when the rows are ordered by count, largest
    first. *)
Definition count_desc (p q : Pandas.value * Z) : Prop := snd q <= snd p.

(** [rows] holds one (key, count) pair per distinct value of the column
    [s], each with its number of occurrences, ordered by count, largest
    first. *)
Definition counts_by_frequency (s : list Pandas.value)
    (rows : list (Pandas.value * Z)) : Prop :=
  rows ≡ₚ first_seen_counts s
  /\ NoDup (map fst rows)
  /\ (forall k n, (k, n) ∈ rows <-> k ∈ s /\ n = occurrences k s)
  /\ StronglySorted count_desc rows.

(** [r] is "the nearest-integer rounding" of [100 * count_done / total]:
    no integer is closer (at a tie both neighbours qualify). *)
Definition nearest_percent (r count_done total : Z) : Prop :=
  2 * Z.abs (total * r - 100 * count_done) <= total.

(** "count where status == Done" *)
Definition count_done (l : list Task) : Z :=
  Z.of_nat (length (filter (fun t => Status t = "Done") l)).

End Spec.

(** The store invariant of the script: every stored status is "Pending". *)
Definition all_Pending (l : list Task) : Prop :=
  Forall (fun t => Status t = "Pending") l.

(** A date for the worked examples. *)
Definition a_date : Py.date := {| Py.year := 2024; Py.month := 1; Py.day := 10 |}.

(** ** The session dict and its initialisation (lines 12-15) *)

(** What the script keeps under a key of [st.session_state]. *)
Inductive stored :=
| Tasks_value (l : list Task)
| Resources_value (l : list Resource).

(** Lines 12-15, run at the top of every run of the script: a key that is
    missing gets the empty list, a key that is there is left alone. *)
Definition init_session (d : gmap string stored) : gmap string stored :=
  let d1 :=
    match d !! "tasks" with
    | Some _ => d
    | None => <["tasks" := Tasks_value []]> d
    end in
  match d1 !! "resources" with
  | Some _ => d1
  | None => <["resources" := Resources_value []]> d1
  end.

(** The dict that holds the two lists of a [session_state]. *)
Definition session_dict_of (st : session_state) : gmap string stored :=
  <["resources" := Resources_value (resources st)]>
    (<["tasks" := Tasks_value (tasks st)]> ∅).

(** ** Task Planner page: the filtered frame (lines 116-122) *)

(** Lines 121-122 on the frame [df_tasks]. *)
Definition filter_frame (filter_status : string) (df_tasks : Pandas.DataFrame)
    : Py.result Pandas.DataFrame :=
  if decide (filter_status ≠ "All") then
    status ← Pandas.getitem df_tasks "Status";
    Py.Ok (Pandas.getitem_mask df_tasks
             (Pandas.eq_mask status (Pandas.str filter_status)))
  else Py.Ok df_tasks.

(** Lines 116-122: the frame handed to the editor; with no task the page
    shows the "No tasks yet" message instead. *)
Definition todo_frame (filter_status : string) (st : session_state)
    : feedback + Py.result Pandas.DataFrame :=
  match tasks st with
  | [] => inl (st_info "No tasks yet. Add one above!")
  | _ :: _ => inr (filter_frame filter_status (Pandas.DataFrame_of (tasks st)))
  end.

(** ** Resource Hub page (lines 147-214) *)

(** Lines 151-153: the options of the subject select box. *)
Definition hub_subjects (st : session_state) : list string :=
  let subjects := get_subjects st in
  match subjects with
  | [] => ["General"]
  | _ :: _ => subjects
  end.

(** [res['Desc']]: the video dicts have no such key. *)
Definition getitem_Desc (res : Resource) : Py.result string :=
  match res_Desc res with
  | Some d => Py.Ok d
  | None => Py.Raise (Py.KeyError "Desc")
  end.

(** Line 177: the f-string. *)
Definition link_markdown (desc content : string) : string :=
  "🔗 **[" +:+ desc +:+ "](" +:+ content +:+ ")**".

(** Lines 175-177: the markdown lines written, one per link of the selected
    subject, in store order. *)
Fixpoint display_links (selected_subject : string) (rs : list Resource)
    : Py.result (list string) :=
  match rs with
  | [] => Py.Ok []
  | res :: rs' =>
      if bool_decide (res_Type res = "Link")
         && bool_decide (res_Subject res = selected_subject) then
        desc ← getitem_Desc res;
        shown ← display_links selected_subject rs';
        Py.Ok (link_markdown desc (res_Content res) :: shown)
      else display_links selected_subject rs'
  end.

(** What the file uploader returns: the name, the MIME type and the bytes
    of the file. *)
Record UploadedFile := {
  file_name : string;
  file_type : string;
  file_bytes : string
}.

(** The two Streamlit calls of the page that can fail.  [st.video] takes a
    URL, or else reads its argument as the path of a file of the server and
    fails when it cannot open it; [st.image] fails on bytes that are not an
    image.  Their outcome is not the script's: the model takes the two calls
    as they come, and every theorem holds whatever they do. *)
Record streamlit := {
  st_video : string -> Py.result unit;
  st_image : UploadedFile -> Py.result unit
}.

(** Lines 191-193: the loop hands the videos of the selected subject to
    [st.video], in store order, and stops at the first one that raises; the
    result lists the URLs shown. *)
Fixpoint display_videos (lib : streamlit) (selected_subject : string)
    (rs : list Resource) : Py.result (list string) :=
  match rs with
  | [] => Py.Ok []
  | res :: rs' =>
      if bool_decide (res_Type res = "Video")
         && bool_decide (res_Subject res = selected_subject) then
        _ ← st_video lib (res_Content res);
        shown ← display_videos lib selected_subject rs';
        Py.Ok (res_Content res :: shown)
      else display_videos lib selected_subject rs'
  end.

(** Lines 195-214: the upload tab. *)
Inductive upload_output :=
| written (text : string)
| download_button (label : string) (data : UploadedFile)
    (download_name mime : string)
| image (data : UploadedFile).

Definition upload_tab (lib : streamlit) (uploaded_file : option UploadedFile)
    : Py.result (list upload_output) :=
  match uploaded_file with
  | None => Py.Ok []
  | Some f =>
      let preview := written ("**Previewing: " +:+ file_name f +:+ "**") in
      if decide (file_type f = "application/pdf") then
        Py.Ok [preview;
               download_button "Download PDF" f (file_name f) "application/pdf"]
      else
        _ ← st_image lib f;
        Py.Ok [preview; image f]
  end.

(** The widget values of one run of the page; at most one button is down. *)
Inductive hub_click := No_Click | Save_Link_Click | Add_Video_Click.

Record hub_inputs := {
  selected_subject : string;
  link_url : string;
  link_desc : string;
  video_url : string;
  click : hub_click;
  uploaded_file : option UploadedFile
}.

Record hub_view := {
  link_feedback : option feedback;
  shown_links : list string;
  shown_videos : list string;
  shown_upload : list upload_output
}.

(** The confirmation that a run shows: only Save Link has one. *)
Definition feedback_of (c : hub_click) : option feedback :=
  match c with
  | Save_Link_Click => Some (st_success "Link Saved!")
  | _ => None
  end.

(** Lines 160-214, top to bottom.  The state is returned also when a call
    raises: what was appended before stays in the session, and what comes
    after the call is not run. *)
Definition resource_hub_page (lib : streamlit) (inp : hub_inputs)
    (st : session_state) : Py.result hub_view * session_state :=
  let '(fb, st1) :=
    match click inp with
    | Save_Link_Click =>
        let '(f, s) :=
          save_link_button (selected_subject inp) (link_url inp) (link_desc inp) st in
        (Some f, s)
    | _ => (None, st)
    end in
  match display_links (selected_subject inp) (resources st1) with
  | Py.Raise e => (Py.Raise e, st1)
  | Py.Ok links =>
      let st2 :=
        match click inp with
        | Add_Video_Click => add_video_button (selected_subject inp) (video_url inp) st1
        | _ => st1
        end in
      match display_videos lib (selected_subject inp) (resources st2) with
      | Py.Raise e => (Py.Raise e, st2)
      | Py.Ok videos =>
          match upload_tab lib (uploaded_file inp) with
          | Py.Raise e => (Py.Raise e, st2)
          | Py.Ok upload =>
              (Py.Ok {| link_feedback := fb; shown_links := links;
                        shown_videos := videos; shown_upload := upload |}, st2)
          end
      end
  end.

(** The button event, if any, that a run of the page with these widget
    values stands for. *)
Definition hub_event (inp : hub_inputs) : option event :=
  match click inp with
  | No_Click => None
  | Save_Link_Click =>
      Some (Click_Save_Link (selected_subject inp) (link_url inp) (link_desc inp))
  | Add_Video_Click =>
      Some (Click_Add_Video (selected_subject inp) (video_url inp))
  end.

(** ** What the select boxes offer *)

(** A select box returns one of its options.  For the events that carry the
    value of a select box: line 95 (priority), line 120 (status filter),
    line 155 (subject of the Resource Hub). *)
Definition offered (st : session_state) (e : event) : Prop :=
  match e with
  | Click_Add_Task _ _ _ _ priority => priority ∈ ["High"; "Medium"; "Low"]
  | Use_Todo_List filter_status _ => filter_status ∈ ["All"; "Pending"; "Done"]
  | Click_Save_Link selected_subject _ _ => selected_subject ∈ hub_subjects st
  | Click_Add_Video selected_subject _ => selected_subject ∈ hub_subjects st
  | Open_Dashboard => True
  end.

(** Every event of the run carries values its select box offered at the
    time. *)
Fixpoint offered_run (st : session_state) (events : list event) : Prop :=
  match events with
  | [] => True
  | e :: events' => offered st e /\ offered_run (step st e) events'
  end.

(** The resources as the script writes them: a link has a description, a
    video has none. *)
Definition well_formed (res : Resource) : Prop :=
  (res_Type res = "Link" /\ is_Some (res_Desc res))
  \/ (res_Type res = "Video" /\ res_Desc res = None).

(** A library for the worked examples: [st.video] takes the strings that
    start with "http" and fails on the others as on a file it cannot open;
    [st.image] takes the files whose type starts with "image/". *)
Definition a_streamlit : streamlit :=
  {| st_video := fun data =>
       if String.prefix "http" data then Py.Ok tt
       else Py.Raise Py.MediaFileStorageError;
     st_image := fun f =>
       if String.prefix "image/" (file_type f) then Py.Ok tt
       else Py.Raise Py.UnidentifiedImageError |}.

(** The sum of the Count column of a chart's rows. *)
Definition total_count (rows : list (Pandas.value * Z)) : Z :=
  foldr Z.add 0 (map snd rows).

(** A task that passes the test of line 98. *)
Definition filled (t : Task) : Prop := Subject t <> "" /\ Chapter t <> "".

(** The values stored from a select box are values it offered: a resource
    is filed under a default subject or the subject of a stored task, a
    task has one of the three priorities. *)
Definition from_select_boxes (st : session_state) : Prop :=
  (forall res, res ∈ resources st ->
     res_Subject res ∈ default_subjects
     \/ exists t, t ∈ tasks st /\ Subject t = res_Subject res)
  /\ (forall t, t ∈ tasks st -> Priority t ∈ ["High"; "Medium"; "Low"]).

(** The task that an event puts in the store, if any (lines 97-106), and
    the resource (lines 164-170 and 182-187). *)
Definition stored_task (e : event) : option Task :=
  match e with
  | Click_Add_Task subject chapter topic due_date priority =>
      if Py.truthy subject && Py.truthy chapter
      then Some (new_task subject chapter topic due_date priority)
      else None
  | _ => None
  end.

Definition stored_resource (e : event) : option Resource :=
  match e with
  | Click_Save_Link selected_subject link_url link_desc =>
      Some {| res_Subject := selected_subject; res_Type := "Link";
              res_Content := link_url; res_Desc := Some link_desc |}
  | Click_Add_Video selected_subject video_url =>
      Some {| res_Subject := selected_subject; res_Type := "Video";
              res_Content := video_url; res_Desc := None |}
  | _ => None
  end.

(** * Theorems *)

(** ** The Add Task button *)

Section AddTask.

Variables (subject chapter topic : string) (due_date : Py.date)
  (priority : string) (st : session_state).

Lemma truthy_nonempty (s : string) : Py.truthy s = true <-> s <> "".
Proof. destruct s; simpl; split; congruence. Qed.

Lemma add_task_accepts :
  subject <> "" -> chapter <> "" ->
  add_task_button subject chapter topic due_date priority st =
    (st_success "Task Added!",
     {| tasks := tasks st ++ [new_task subject chapter topic due_date priority];
        resources := resources st |}).
Proof.
  intros Hs Hc. unfold add_task_button.
  apply truthy_nonempty in Hs, Hc. now rewrite Hs, Hc.
Qed.

Lemma add_task_rejects :
  subject = "" \/ chapter = "" ->
  add_task_button subject chapter topic due_date priority st =
    (st_error "Please fill in at least Subject and Chapter.", st).
Proof.
  unfold add_task_button. intros [-> | ->]; simpl; [reflexivity |].
  now rewrite andb_false_r.
Qed.

End AddTask.

(** C2, as amended: when subject or chapter is the empty string the Add Task
    handler shows the error and returns the state it was given, so the task
    list keeps its length and its elements.  Nothing is claimed for a field
    that holds only whitespace: the handler tests the truth value of the
    string, and a string of blanks is true. *)
Theorem add_task_empty_field_rejected
    (subject chapter topic : string) (due_date : Py.date) (priority : string)
    (st : session_state) :
  subject = "" \/ chapter = "" ->
  let out := add_task_button subject chapter topic due_date priority st in
  out.1 = st_error "Please fill in at least Subject and Chapter."
  /\ out.2 = st
  /\ tasks out.2 = tasks st
  /\ length (tasks out.2) = length (tasks st).
Proof.
  intros H. simpl. rewrite add_task_rejects by exact H. simpl. auto.
Qed.

(** C2, witness: an empty subject on the empty store. *)
Lemma add_task_empty_field_rejected_witness :
  let out := add_task_button "" "Ch1" "Topic A" a_date "High" initial_state in
  out.1 = st_error "Please fill in at least Subject and Chapter."
  /\ out.2 = initial_state
  /\ tasks out.2 = tasks initial_state
  /\ length (tasks out.2) = length (tasks initial_state).
Proof.
  apply (add_task_empty_field_rejected "" "Ch1" "Topic A" a_date "High" initial_state).
  left. reflexivity.
Defined.

(** C2, counterexample: a subject made of one space is whitespace-only, yet
    the handler reports success and the task list grows from 0 to 1. *)
Lemma whitespace_subject_is_accepted :
  Spec.blank " " = true
  /\ add_task_button " " "Ch1" "Topic A" a_date "High" initial_state =
       (st_success "Task Added!",
        {| tasks := [new_task " " "Ch1" "Topic A" a_date "High"];
           resources := [] |})
  /\ length (tasks (add_task_button " " "Ch1" "Topic A" a_date "High"
                      initial_state).2) <> length (tasks initial_state).
Proof. repeat split. discriminate. Qed.

(** C8: with a non-empty subject and a non-empty chapter the handler reports
    success, the task list grows by exactly one, the new task is the last
    element and has status Pending, and every task stored before is still at
    its position. *)
Theorem add_task_appends_pending
    (subject chapter topic : string) (due_date : Py.date) (priority : string)
    (st : session_state) :
  subject <> "" -> chapter <> "" ->
  let out := add_task_button subject chapter topic due_date priority st in
  let t := new_task subject chapter topic due_date priority in
  out.1 = st_success "Task Added!"
  /\ tasks out.2 = tasks st ++ [t]
  /\ length (tasks out.2) = S (length (tasks st))
  /\ last (tasks out.2) = Some t
  /\ Status t = "Pending"
  /\ (forall i x, tasks st !! i = Some x -> tasks out.2 !! i = Some x)
  /\ resources out.2 = resources st.
Proof.
  intros Hs Hc. simpl. rewrite add_task_accepts by assumption. simpl.
  repeat split.
  - rewrite length_app. simpl. lia.
  - apply last_snoc.
  - intros i x Hi. now apply lookup_app_l_Some.
Qed.

(** C8, witness: a second task added to a store that holds one. *)
Lemma add_task_appends_pending_witness :
  let st := {| tasks := [new_task "Math" "Ch0" "" a_date "Low"]; resources := [] |} in
  let out := add_task_button "Physics" "Ch1" "Topic A" a_date "High" st in
  let t := new_task "Physics" "Ch1" "Topic A" a_date "High" in
  out.1 = st_success "Task Added!"
  /\ tasks out.2 = tasks st ++ [t]
  /\ length (tasks out.2) = S (length (tasks st))
  /\ last (tasks out.2) = Some t
  /\ Status t = "Pending"
  /\ (forall i x, tasks st !! i = Some x -> tasks out.2 !! i = Some x)
  /\ resources out.2 = resources st.
Proof.
  apply (add_task_appends_pending "Physics" "Ch1" "Topic A" a_date "High");
    discriminate.
Defined.

(** ** The resource buttons *)

(** C3, as amended: Save Link and Add Video validate nothing.  Whatever the
    content, empty or not, each click appends exactly one resource carrying
    that content at the end of the resource list, Save Link reports success,
    and the task list is untouched. *)
Theorem resource_buttons_always_append
    (selected_subject content link_desc : string) (st : session_state) :
  let link := save_link_button selected_subject content link_desc st in
  let video := add_video_button selected_subject content st in
  link.1 = st_success "Link Saved!"
  /\ resources link.2 = resources st ++
       [{| res_Subject := selected_subject; res_Type := "Link";
           res_Content := content; res_Desc := Some link_desc |}]
  /\ resources video = resources st ++
       [{| res_Subject := selected_subject; res_Type := "Video";
           res_Content := content; res_Desc := None |}]
  /\ length (resources link.2) = S (length (resources st))
  /\ length (resources video) = S (length (resources st))
  /\ tasks link.2 = tasks st /\ tasks video = tasks st.
Proof.
  simpl. repeat split; rewrite length_app; simpl; lia.
Qed.

(** C3, counterexample: with empty content both buttons still append; the
    link click even reports success. *)
Lemma empty_content_is_appended :
  save_link_button "Math" "" "" initial_state =
    (st_success "Link Saved!",
     {| tasks := [];
        resources := [{| res_Subject := "Math"; res_Type := "Link";
                         res_Content := ""; res_Desc := Some "" |}] |})
  /\ add_video_button "Math" "" initial_state =
     {| tasks := [];
        resources := [{| res_Subject := "Math"; res_Type := "Video";
                         res_Content := ""; res_Desc := None |}] |}.
Proof. split; reflexivity. Qed.

(** ** What a run of the script can do to the task list *)

(** The To-Do list page hands back the state it was given, whatever the
    filter and the edits. *)
Lemma todo_list_keeps_state filter_status edits st :
  (todo_list filter_status edits st).2 = st.
Proof. unfold todo_list. now destruct (tasks st). Qed.

(** Every event either leaves the task list alone or appends one task whose
    status is Pending. *)
Lemma step_tasks st e :
  tasks (step st e) = tasks st
  \/ exists t, tasks (step st e) = tasks st ++ [t] /\ Status t = "Pending".
Proof.
  destruct e as [subject chapter topic due_date priority | f edits | s u d | s u | ];
    simpl; try (left; reflexivity).
  - unfold add_task_button.
    destruct (Py.truthy subject && Py.truthy chapter); simpl; [right | left; reflexivity].
    eexists; split; reflexivity.
  - left. now rewrite todo_list_keeps_state.
Qed.

Lemma step_all_Pending st e : all_Pending (tasks st) -> all_Pending (tasks (step st e)).
Proof.
  intros H. destruct (step_tasks st e) as [-> | (t & -> & Ht)]; [exact H |].
  apply Forall_app; split; [exact H | now constructor].
Qed.

Lemma fold_step_all_Pending events st :
  all_Pending (tasks st) -> all_Pending (tasks (fold_left step events st)).
Proof.
  revert st. induction events as [| e events IH]; intros st H; simpl; [exact H |].
  apply IH, step_all_Pending, H.
Qed.

Lemma step_prefix st e : tasks st `prefix_of` tasks (step st e).
Proof.
  destruct (step_tasks st e) as [-> | (t & -> & _)]; [reflexivity |].
  now apply prefix_app_r.
Qed.

(** C9: in every state reachable from the empty store, every task has status
    "Pending".  The only event that changes the task list appends a task
    created with that status, and the table view returns the state unchanged
    whatever was edited in it, so no stored status is ever "In Progress" or
    "Done". *)
Theorem store_status_always_Pending (events : list event) :
  all_Pending (tasks (run events))
  /\ (forall t, t ∈ tasks (run events) ->
        Status t <> "In Progress" /\ Status t <> "Done")
  /\ (forall st e, tasks (step st e) = tasks st
        \/ exists t, tasks (step st e) = tasks st ++ [t] /\ Status t = "Pending")
  /\ (forall st filter_status edits,
        step st (Use_Todo_List filter_status edits) = st).
Proof.
  assert (H : all_Pending (tasks (run events))).
  { apply fold_step_all_Pending. constructor. }
  split; [exact H |]. split; [| split].
  - intros t Ht. unfold all_Pending in H. rewrite Forall_forall in H.
    rewrite (H t Ht). split; discriminate.
  - apply step_tasks.
  - intros st f edits. simpl. apply todo_list_keeps_state.
Qed.

(** ** Removing a task *)

(** C5, as amended: the script has no removal on the store and no not-found
    error.  Whatever the table editor returns, a frame or an exception, the
    run leaves the store as it was, so the list shown afterwards is the
    original sequence.  In particular, when the editor returns the task
    table without row [i], for a position [i] in range, that frame is one
    row short, and the store and the list shown next still hold every task
    at its position; and no event at all ever shortens the store. *)
Theorem delete_row_leaves_store
    (st : session_state) (edited_df : Py.result (list Task)) :
  let st' := step st (Use_Todo_List "All" edited_df) in
  st' = st
  /\ list_tasks "All" st' = tasks st
  /\ (tasks st <> [] -> (todo_list "All" edited_df st).1 = Some edited_df)
  /\ (forall i, (i < length (tasks st))%nat ->
        let without_i := delete i (tasks st) in
        S (length without_i) = length (tasks st)
        /\ step st (Use_Todo_List "All" (Py.Ok without_i)) = st
        /\ list_tasks "All" (step st (Use_Todo_List "All" (Py.Ok without_i)))
             <> without_i)
  /\ (forall e, tasks st `prefix_of` tasks (step st e)).
Proof.
  cbv zeta. cbn [step]. rewrite !todo_list_keeps_state.
  split; [reflexivity |]. split; [reflexivity |]. split; [| split].
  - intros Hne. unfold todo_list. now destruct (tasks st).
  - intros i Hi. rewrite !todo_list_keeps_state.
    assert (Hlen : S (length (delete i (tasks st))) = length (tasks st)).
    { rewrite length_delete by (now apply lookup_lt_is_Some). lia. }
    split; [exact Hlen |]. split; [reflexivity |].
    unfold list_tasks. rewrite decide_True by reflexivity.
    intros Heq. rewrite <- Heq in Hlen. lia.
  - apply step_prefix.
Qed.

(** C5, counterexample: after one task has been added, the editor returns
    the task table without row 0, an in-range position; the store and the
    list shown next still hold that task, while the original sequence with
    element 0 removed is empty. *)
Lemma deleted_row_is_still_listed :
  let st := run [Click_Add_Task "Math" "Ch1" "Topic A" a_date "High"] in
  let st' := step st (Use_Todo_List "All" (Py.Ok (delete 0%nat (tasks st)))) in
  delete 0%nat (tasks st) = []
  /\ list_tasks "All" st' = [new_task "Math" "Ch1" "Topic A" a_date "High"]
  /\ list_tasks "All" st' <> delete 0%nat (tasks st).
Proof. repeat split. discriminate. Qed.

(** ** get_subjects *)

(** C10: on an empty task list [get_subjects] itself returns the four default
    subjects; otherwise it returns the Subject values of the stored tasks
    without duplicates (every stored subject is in the result, and nothing
    else).  Nothing is said about the order.  In both cases the result is
    non-empty. *)
Theorem get_subjects_defaults_or_distinct (st : session_state) :
  (tasks st = [] -> get_subjects st = ["Math"; "Physics"; "History"; "Biology"])
  /\ (tasks st <> [] ->
        NoDup (get_subjects st)
        /\ forall s, s ∈ get_subjects st <-> exists t, t ∈ tasks st /\ Subject t = s)
  /\ get_subjects st <> [].
Proof.
  unfold get_subjects. destruct (tasks st) as [| t0 l] eqn:E.
  - repeat split; try done.
  - split; [discriminate |]. split.
    + intros _. split; [apply NoDup_elements |].
      intros s. rewrite elem_of_elements, elem_of_list_to_set, list_elem_of_fmap.
      split; intros (t & H1 & H2); exists t; auto.
    + intros Hnil. apply elements_empty_inv in Hnil.
      assert (Subject t0 ∈ (list_to_set (map Subject (t0 :: l)) : gset string)) as Hin.
      { apply elem_of_list_to_set. simpl. left. }
      rewrite Hnil in Hin. set_solver.
Qed.

Example get_subjects_no_tasks : get_subjects initial_state = default_subjects.
Proof. reflexivity. Qed.

Example get_subjects_two_subjects :
  get_subjects {| tasks := [new_task "B" "c" "" a_date "Low";
                            new_task "A" "c" "" a_date "Low";
                            new_task "B" "d" "" a_date "Low"];
                  resources := [] |} = ["A"; "B"].
Proof. vm_compute. reflexivity. Qed.

(** ** value_counts *)

Section ValueCounts.
Import Pandas.

Lemma elem_of_first_seen (l : Series) x : x ∈ Spec.first_seen l <-> x ∈ l.
Proof.
  induction l as [| v l IH]; simpl; [reflexivity |].
  rewrite !elem_of_cons, list_elem_of_filter, IH.
  destruct (decide (x = v)); tauto.
Qed.

Lemma NoDup_first_seen (l : Series) : NoDup (Spec.first_seen l).
Proof.
  induction l as [| v l IH]; simpl; constructor.
  - rewrite list_elem_of_filter. tauto.
  - now apply NoDup_filter.
Qed.

Lemma first_seen_snoc (l : Series) v :
  Spec.first_seen (l ++ [v]) =
    if decide (v ∈ l) then Spec.first_seen l else Spec.first_seen l ++ [v].
Proof.
  induction l as [| a l IH]; simpl; [reflexivity |].
  rewrite IH. do 2 case_decide.
  - reflexivity.
  - exfalso. apply H0. now right.
  - apply elem_of_cons in H0 as [-> | Hin]; [| tauto].
    rewrite filter_app, filter_cons_False, filter_nil by tauto.
    now rewrite app_nil_r.
  - apply not_elem_of_cons in H0 as [Hne _].
    now rewrite filter_app, filter_cons_True, filter_nil by tauto.
Qed.

Lemma occurrences_snoc k (l : Series) v :
  Spec.occurrences k (l ++ [v]) =
    Spec.occurrences k l + (if decide (v = k) then 1 else 0).
Proof.
  unfold Spec.occurrences. rewrite filter_app, length_app.
  case_decide.
  - rewrite filter_cons_True by assumption. simpl. lia.
  - rewrite filter_cons_False by assumption. simpl. lia.
Qed.

Lemma occurrences_pos k (l : Series) : k ∈ l -> 1 <= Spec.occurrences k l.
Proof.
  unfold Spec.occurrences. intros Hin.
  match goal with |- context [length ?f] =>
    assert (k ∈ f) as H by (apply list_elem_of_filter; tauto); destruct f
  end; [inversion H | cbn [length]; lia].
Qed.

Lemma occurrences_absent k (l : Series) : k ∉ l -> Spec.occurrences k l = 0.
Proof.
  unfold Spec.occurrences. intros Hnin.
  match goal with |- context [length ?f] =>
    destruct f as [| x l'] eqn:E; [reflexivity |];
    assert (x ∈ f) as H by (rewrite E; left)
  end.
  apply list_elem_of_filter in H as [-> H]. contradiction.
Qed.

Lemma tally_snoc (l : Series) v : tally (l ++ [v]) = count_value v (tally l).
Proof. unfold tally. now rewrite fold_left_app. Qed.

(** A value that has no counter yet gets one, at the end. *)
Lemma count_value_absent (c : value -> Z) v (ks : list value) :
  v ∉ ks ->
  count_value v (map (fun k => (k, c k)) ks) = map (fun k => (k, c k)) ks ++ [(v, 1)].
Proof.
  induction ks as [| k ks IH]; intros Hnin; cbn [map count_value app]; [reflexivity |].
  apply not_elem_of_cons in Hnin as [Hne Hnin].
  case_decide; [contradiction |]. now rewrite IH.
Qed.

(** A value that has a counter bumps it in place. *)
Lemma count_value_present (c : value -> Z) v (ks : list value) :
  NoDup ks -> v ∈ ks ->
  count_value v (map (fun k => (k, c k)) ks) =
    map (fun k => (k, c k + (if decide (v = k) then 1 else 0))) ks.
Proof.
  induction ks as [| k ks IH]; intros Hnd Hin; [inversion Hin |].
  apply NoDup_cons in Hnd as [Hk Hnd]. cbn [map count_value].
  case_decide as Hvk.
  - subst k. f_equal.
    apply map_ext_in. intros k' Hk'. apply list_elem_of_In in Hk'.
    case_decide; [subst k'; contradiction |]. f_equal. lia.
  - apply elem_of_cons in Hin as [-> | Hin]; [contradiction |].
    rewrite Z.add_0_r. now rewrite IH.
Qed.

(** The hash-table pass, in closed form: the distinct values in first-met
    order, each with its number of occurrences. *)
Lemma tally_first_seen (s : Series) : tally s = Spec.first_seen_counts s.
Proof.
  unfold Spec.first_seen_counts.
  induction s as [| v s IH] using rev_ind; [reflexivity |].
  rewrite tally_snoc, IH, first_seen_snoc. case_decide as Hin.
  - rewrite count_value_present.
    + apply map_ext. intros k. now rewrite occurrences_snoc.
    + apply NoDup_first_seen.
    + now apply elem_of_first_seen.
  - rewrite count_value_absent by (now rewrite elem_of_first_seen).
    rewrite map_app. simpl. f_equal.
    + apply map_ext_in. intros k Hk.
      apply list_elem_of_In in Hk. rewrite elem_of_first_seen in Hk.
      rewrite occurrences_snoc. case_decide; [subst k; contradiction |].
      f_equal. lia.
    + rewrite occurrences_snoc, occurrences_absent by assumption.
      case_decide; [reflexivity | contradiction].
Qed.

Lemma insert_desc_perm p l : insert_desc p l ≡ₚ p :: l.
Proof.
  induction l as [| q l IH]; simpl; [reflexivity |].
  destruct (snd p <? snd q); [| reflexivity].
  rewrite IH. apply perm_swap.
Qed.

Lemma sort_desc_perm l : sort_desc l ≡ₚ l.
Proof.
  induction l as [| p l IH]; simpl; [reflexivity |].
  now rewrite insert_desc_perm, IH.
Qed.

Lemma insert_desc_sorted p l :
  StronglySorted Spec.count_desc l -> StronglySorted Spec.count_desc (insert_desc p l).
Proof.
  induction 1 as [| q l Hs IH Hq]; simpl.
  - repeat constructor.
  - destruct (snd p <? snd q) eqn:E.
    + apply Z.ltb_lt in E. constructor; [exact IH |].
      rewrite insert_desc_perm. constructor; [unfold Spec.count_desc; lia | exact Hq].
    + apply Z.ltb_ge in E. constructor; [now constructor |].
      constructor; [exact E |].
      eapply Forall_impl; [exact Hq |]. unfold Spec.count_desc. intros; simpl in *; lia.
Qed.

Lemma sort_desc_sorted l : StronglySorted Spec.count_desc (sort_desc l).
Proof.
  induction l as [| p l IH]; simpl; [constructor | now apply insert_desc_sorted].
Qed.

(** What [value_counts] returns, for any column. *)
Lemma value_counts_spec (s : Series) : Spec.counts_by_frequency s (value_counts s).
Proof.
  unfold Spec.counts_by_frequency.
  assert (Hp : value_counts s ≡ₚ Spec.first_seen_counts s).
  { unfold value_counts. now rewrite sort_desc_perm, tally_first_seen. }
  split; [exact Hp |]. split; [| split].
  - rewrite Hp. unfold Spec.first_seen_counts. rewrite map_map. simpl.
    rewrite map_id. apply NoDup_first_seen.
  - intros k n. rewrite Hp. unfold Spec.first_seen_counts.
    rewrite list_elem_of_fmap. split.
    + intros (k' & [= -> ->] & Hk). split; [now apply elem_of_first_seen | reflexivity].
    + intros [Hk ->]. exists k. split; [reflexivity | now apply elem_of_first_seen].
  - apply sort_desc_sorted.
Qed.

Lemma omap_get_Subject (l : list Task) :
  omap (fun t => get t "Subject") l = map (fun t => str (Subject t)) l.
Proof. induction l as [| t l IH]; [reflexivity |]. cbn. now rewrite IH. Qed.

Lemma omap_get_Status (l : list Task) :
  omap (fun t => get t "Status") l = map (fun t => str (Status t)) l.
Proof. induction l as [| t l IH]; [reflexivity |]. cbn. now rewrite IH. Qed.

Lemma getitem_Subject (l : list Task) :
  l <> [] ->
  getitem (DataFrame_of l) "Subject" = Py.Ok (map (fun t => str (Subject t)) l).
Proof.
  destruct l as [| t l]; [congruence | intros _].
  unfold getitem. cbn [DataFrame_of columns rows].
  rewrite decide_True by (unfold task_keys; repeat constructor).
  now rewrite omap_get_Subject.
Qed.

Lemma getitem_Status (l : list Task) :
  l <> [] ->
  getitem (DataFrame_of l) "Status" = Py.Ok (map (fun t => str (Status t)) l).
Proof.
  destruct l as [| t l]; [congruence | intros _].
  unfold getitem. cbn [DataFrame_of columns rows].
  rewrite decide_True by (unfold task_keys; repeat constructor).
  now rewrite omap_get_Status.
Qed.

Lemma getitem_no_columns (col : string) :
  getitem (DataFrame_of []) col = Py.Raise (Py.KeyError col).
Proof. reflexivity. Qed.

End ValueCounts.

(** C4, as amended: for every non-empty task sequence the two chart tables
    hold one (key, count) pair per distinct subject (respectively status),
    each with its number of occurrences and none with count zero, and the
    pairs are ordered by count, largest first, as [value_counts] sorts them;
    they are a rearrangement of the first-seen order, not that order itself.
    Both tables are functions of the task sequence. *)
Theorem chart_counts_by_frequency (l : list Task) :
  l <> [] ->
  let df := Pandas.DataFrame_of l in
  let subjects := map (fun t => Pandas.str (Subject t)) l in
  let statuses := map (fun t => Pandas.str (Status t)) l in
  subj_counts df = Py.Ok (Pandas.value_counts subjects)
  /\ status_counts df = Py.Ok (Pandas.value_counts statuses)
  /\ Spec.counts_by_frequency subjects (Pandas.value_counts subjects)
  /\ Spec.counts_by_frequency statuses (Pandas.value_counts statuses)
  /\ (forall k n, (k, n) ∈ Pandas.value_counts subjects -> 1 <= n).
Proof.
  intros Hne. cbv zeta. unfold subj_counts, status_counts.
  rewrite getitem_Subject, getitem_Status by assumption.
  split; [reflexivity |]. split; [reflexivity |].
  split; [apply value_counts_spec |]. split; [apply value_counts_spec |].
  intros k n Hkn.
  destruct (value_counts_spec (map (fun t => Pandas.str (Subject t)) l))
    as (_ & _ & Hin & _).
  apply Hin in Hkn as [Hk ->]. now apply occurrences_pos.
Qed.

(** C4, witness: three tasks with the subjects A, B, B. *)
Lemma chart_counts_by_frequency_witness :
  let l := [new_task "A" "c1" "" a_date "Low"; new_task "B" "c2" "" a_date "Low";
            new_task "B" "c3" "" a_date "Low"] in
  let df := Pandas.DataFrame_of l in
  let subjects := map (fun t => Pandas.str (Subject t)) l in
  let statuses := map (fun t => Pandas.str (Status t)) l in
  subj_counts df = Py.Ok (Pandas.value_counts subjects)
  /\ status_counts df = Py.Ok (Pandas.value_counts statuses)
  /\ Spec.counts_by_frequency subjects (Pandas.value_counts subjects)
  /\ Spec.counts_by_frequency statuses (Pandas.value_counts statuses)
  /\ (forall k n, (k, n) ∈ Pandas.value_counts subjects -> 1 <= n).
Proof.
  apply (chart_counts_by_frequency
           [new_task "A" "c1" "" a_date "Low"; new_task "B" "c2" "" a_date "Low";
            new_task "B" "c3" "" a_date "Low"]).
  discriminate.
Defined.

(** C4, counterexample: for the subjects A, B, B the first-seen order is
    A then B, but the bar-chart table lists B (count 2) before A (count 1). *)
Lemma frequent_subject_comes_first :
  let l := [new_task "A" "c1" "" a_date "Low"; new_task "B" "c2" "" a_date "Low";
            new_task "B" "c3" "" a_date "Low"] in
  let subjects := map (fun t => Pandas.str (Subject t)) l in
  subj_counts (Pandas.DataFrame_of l) =
    Py.Ok [(Pandas.str "B", 2); (Pandas.str "A", 1)]
  /\ Spec.first_seen_counts subjects = [(Pandas.str "A", 1); (Pandas.str "B", 2)]
  /\ subj_counts (Pandas.DataFrame_of l) <> Py.Ok (Spec.first_seen_counts subjects).
Proof. repeat split. discriminate. Qed.

(** The scenario of the specification: two Math tasks, one Done, one Pending. *)
Example chart_counts_scenario :
  let l := [set_Status "Done" (new_task "Math" "c1" "" a_date "Low");
            new_task "Math" "c2" "" a_date "Low"] in
  subj_counts (Pandas.DataFrame_of l) = Py.Ok [(Pandas.str "Math", 2)]
  /\ status_counts (Pandas.DataFrame_of l) =
       Py.Ok [(Pandas.str "Done", 1); (Pandas.str "Pending", 1)].
Proof. split; reflexivity. Qed.


(** ** Python floats *)

Section Binary64.
Import PyFloat.

(** *** Number of binary digits *)

Lemma digits2_pos_size (p : positive) : digits2_pos p = Pos.size p.
Proof. induction p as [p IH | p IH |]; simpl; congruence. Qed.

Lemma Zdigits2_log2 (m : Z) : 0 < m -> Zdigits2 m = Z.log2 m + 1.
Proof.
  destruct m as [| p | p]; try lia. intros _. simpl.
  rewrite digits2_pos_size. destruct p; simpl; lia.
Qed.

Lemma Zdigits2_bounds (m : Z) :
  0 < m -> 2 ^ (Zdigits2 m - 1) <= m < 2 ^ Zdigits2 m.
Proof.
  intros Hm. rewrite Zdigits2_log2 by assumption.
  replace (Z.log2 m + 1 - 1) with (Z.log2 m) by lia.
  apply Z.log2_spec. assumption.
Qed.

Lemma Zdigits2_unique (m d : Z) :
  2 ^ (d - 1) <= m < 2 ^ d -> 1 <= d -> Zdigits2 m = d.
Proof.
  intros H Hd. assert (0 < m) by (pose proof (Z.pow_pos_nonneg 2 (d - 1)); lia).
  rewrite Zdigits2_log2 by assumption.
  assert (Z.log2 m = d - 1) as ->; [| lia].
  apply Z.log2_unique; [lia |].
  now replace (Z.succ (d - 1)) with d by lia.
Qed.

(** *** Shifting the mantissa right *)

Lemma shr_1_m (mrs : shr_record) :
  0 <= shr_m mrs -> shr_m (shr_1 mrs) = shr_m mrs / 2.
Proof.
  destruct mrs as [m r s]. cbn [shr_m]. intros Hm.
  destruct m as [| [p | p |] | p]; cbn [shr_1 shr_m]; try lia.
  - reflexivity.
  - apply (Z.div_unique (Z.pos p~1) 2 (Z.pos p) 1); lia.
  - apply (Z.div_unique (Z.pos p~0) 2 (Z.pos p) 0); lia.
  - reflexivity.
Qed.

Lemma shr_1_nonneg (mrs : shr_record) : 0 <= shr_m mrs -> 0 <= shr_m (shr_1 mrs).
Proof.
  intros H. rewrite shr_1_m by assumption. apply Z.div_pos; lia.
Qed.

Lemma iter_shr_1_shiftr (p : positive) (mrs : shr_record) :
  0 <= shr_m mrs ->
  shr_m (SpecFloat.iter_pos shr_1 p mrs) = Z.shiftr (shr_m mrs) (Z.pos p).
Proof.
  revert mrs.
  induction p as [p IH | p IH |]; intros mrs Hm; cbn [SpecFloat.iter_pos].
  - assert (H1 := shr_1_nonneg mrs Hm).
    assert (H2 : 0 <= shr_m (SpecFloat.iter_pos shr_1 p (shr_1 mrs))).
    { rewrite IH by assumption. now apply Z.shiftr_nonneg. }
    rewrite IH, IH, shr_1_m by assumption.
    rewrite <- Z.div2_div, Z.div2_spec, !Z.shiftr_shiftr by lia.
    f_equal. lia.
  - assert (H2 : 0 <= shr_m (SpecFloat.iter_pos shr_1 p mrs)).
    { rewrite IH by assumption. now apply Z.shiftr_nonneg. }
    rewrite IH, IH by assumption. rewrite Z.shiftr_shiftr by lia.
    f_equal. lia.
  - rewrite shr_1_m by assumption. now rewrite <- Z.div2_div, Z.div2_spec.
Qed.

Lemma iter_shr_1_m (p : positive) (mrs : shr_record) :
  0 <= shr_m mrs ->
  shr_m (SpecFloat.iter_pos shr_1 p mrs) = shr_m mrs / 2 ^ Z.pos p.
Proof.
  intros Hm. rewrite iter_shr_1_shiftr by assumption.
  apply Z.shiftr_div_pow2. lia.
Qed.

Lemma shr_m_of_loc (m : Z) (l : location) : shr_m (shr_record_of_loc m l) = m.
Proof. destruct l as [| []]; reflexivity. Qed.

Lemma shr_spec (mrs : shr_record) (e n : Z) :
  0 <= shr_m mrs -> 0 <= n ->
  shr_m (shr mrs e n).1 = shr_m mrs / 2 ^ n /\ (shr mrs e n).2 = e + n.
Proof.
  intros Hm Hn. destruct n as [| p | p]; simpl; try lia.
  - rewrite Z.div_1_r. lia.
  - rewrite iter_shr_1_m by assumption. split; reflexivity.
Qed.

Lemma round_nearest_even_bounds (m : Z) (l : location) :
  m <= round_nearest_even m l <= m + 1.
Proof.
  destruct l as [| []]; simpl; try lia. destruct (Z.even m); lia.
Qed.

(** *** Rounding to 53 bits, away from the subnormal and overflow ranges *)

Lemma fexp_normal (e : Z) : -1021 <= e -> fexp prec emax e = e - 53.
Proof. unfold fexp, emin, prec, emax. lia. Qed.

Lemma pow2_pos (n : Z) : 0 <= n -> 0 < 2 ^ n.
Proof. intros. apply Z.pow_pos_nonneg; lia. Qed.

Lemma pow2_split (a b : Z) : 0 <= a -> 0 <= b -> 2 ^ (a + b) = 2 ^ a * 2 ^ b.
Proof. intros. apply Z.pow_add_r; assumption. Qed.

(** A mantissa of at least 53 bits is cut down to exactly 53 bits; the
    result is one of the two 53-bit neighbours of the value. *)
Lemma binary_round_aux_normal (sx : bool) (mx ex : Z) (lx : location) :
  2 ^ 52 <= mx ->
  -1074 <= ex ->
  ex + Zdigits2 mx <= 1023 ->
  exists (m : positive) (e : Z),
    binary_round_aux prec emax sx mx ex lx = S754_finite sx m e
    /\ 2 ^ 52 <= Z.pos m < 2 ^ 53
    /\ ex <= e
    /\ (Z.pos m - 1) * 2 ^ (e - ex) <= mx < (Z.pos m + 1) * 2 ^ (e - ex).
Proof.
  intros Hmx Hex Hov.
  assert (Hpos : 0 < mx) by (pose proof (pow2_pos 52); lia).
  pose proof (Zdigits2_bounds mx Hpos) as Hd.
  set (d := Zdigits2 mx) in *.
  assert (Hd53 : 53 <= d).
  { destruct (Z.le_gt_cases 53 d) as [|Hlt]; [assumption |].
    assert (2 ^ d <= 2 ^ 52) by (apply Z.pow_le_mono_r; lia). lia. }
  set (n := d - 53).
  assert (Hn : 0 <= n) by (unfold n; lia).
  pose proof (pow2_pos n Hn) as Hpn.
  assert (E52 : 2 ^ (d - 1) = 2 ^ 52 * 2 ^ n).
  { rewrite <- pow2_split by lia. f_equal. unfold n. lia. }
  assert (E53 : 2 ^ d = 2 ^ 53 * 2 ^ n).
  { rewrite <- pow2_split by lia. f_equal. unfold n. lia. }
  set (m1 := mx / 2 ^ n).
  assert (Hm1 : m1 * 2 ^ n <= mx < (m1 + 1) * 2 ^ n).
  { unfold m1. pose proof (Z.mul_div_le mx (2 ^ n) Hpn).
    pose proof (Z.mul_succ_div_gt mx (2 ^ n) Hpn). lia. }
  assert (Hm1b : 2 ^ 52 <= m1 < 2 ^ 53) by nia.
  unfold binary_round_aux, shr_fexp. fold d.
  rewrite fexp_normal by lia.
  replace (d + ex - 53 - ex) with n by (unfold n; lia).
  destruct (shr_spec (shr_record_of_loc mx lx) ex n) as [Hs1 Hs2];
    [rewrite shr_m_of_loc; lia | assumption |].
  rewrite shr_m_of_loc in Hs1. fold m1 in Hs1.
  destruct (shr (shr_record_of_loc mx lx) ex n) as [mrs' e'] eqn:E1.
  cbn [fst snd] in Hs1, Hs2. subst e'. rewrite Hs1.
  pose proof (round_nearest_even_bounds m1 (loc_of_shr_record mrs')) as Hr.
  set (r := round_nearest_even m1 (loc_of_shr_record mrs')) in *.
  destruct (Z.eq_dec r (2 ^ 53)) as [Hr53 | Hr53].
  - (* the rounding carried into a 54th bit *)
    assert (Hdr : Zdigits2 r = 54).
    { apply Zdigits2_unique; [| lia]. rewrite Hr53.
      change (54 - 1) with 53. split; [lia |].
      apply Z.pow_lt_mono_r; lia. }
    rewrite Hdr, fexp_normal by lia.
    replace (54 + (ex + n) - 53 - (ex + n)) with 1 by lia.
    cbn [shr_record_of_loc shr SpecFloat.iter_pos]. rewrite shr_1_m by (cbn; lia).
    cbn [shr_m]. rewrite Hr53. change (2 ^ 53 / 2) with (2 ^ 52).
    change (2 ^ 52) with (Z.pos (2 ^ 52)%positive) at 1.
    replace (ex + n + 1 <=? emax - prec) with true
      by (symmetry; apply Z.leb_le; unfold emax, prec, n; lia).
    exists (2 ^ 52)%positive, (ex + n + 1). split; [reflexivity |].
    change (Z.pos (2 ^ 52)%positive) with (2 ^ 52).
    split; [split; [lia | apply Z.pow_lt_mono_r; lia] |]. split; [lia |].
    replace (ex + n + 1 - ex) with (n + 1) by lia.
    rewrite pow2_split by lia. change (2 ^ 1) with 2.
    change (2 ^ 53) with (2 * 2 ^ 52) in *. nia.
  - (* the rounded mantissa still has 53 bits *)
    assert (Hrb : 2 ^ 52 <= r < 2 ^ 53) by lia.
    assert (Hdr : Zdigits2 r = 53) by (apply Zdigits2_unique; [exact Hrb | lia]).
    rewrite Hdr, fexp_normal by lia.
    replace (53 + (ex + n) - 53 - (ex + n)) with 0 by lia.
    cbn [shr_record_of_loc shr shr_m fst snd].
    destruct r as [| pr | pr] eqn:Er; [lia | | lia].
    replace (ex + n <=? emax - prec) with true
      by (symmetry; apply Z.leb_le; unfold emax, prec, n; lia).
    exists pr, (ex + n). split; [reflexivity |]. split; [exact Hrb |].
    split; [lia |]. replace (ex + n - ex) with n by lia. nia.
Qed.

(** *** [completed / total_tasks] *)

Lemma Zdigits2_le (a b : Z) : 0 < a <= b -> Zdigits2 a <= Zdigits2 b.
Proof.
  intros H. rewrite !Zdigits2_log2 by lia.
  pose proof (Z.log2_le_mono a b). lia.
Qed.

Lemma Zdigits2_upper (a k : Z) : 0 < a < 2 ^ k -> 0 <= k -> Zdigits2 a <= k.
Proof.
  intros H Hk. pose proof (Zdigits2_bounds a ltac:(lia)) as Hd.
  destruct (Z.le_gt_cases (Zdigits2 a) k) as [|Hlt]; [assumption |].
  assert (2 ^ k <= 2 ^ (Zdigits2 a - 1)) by (apply Z.pow_le_mono_r; lia). lia.
Qed.

Lemma Zdigits2_ge1 (a : Z) : 0 < a -> 1 <= Zdigits2 a.
Proof.
  intros H. rewrite Zdigits2_log2 by assumption.
  pose proof (Z.log2_nonneg a). lia.
Qed.

(** The quotient of two task counts is a normal binary64 number within
    one unit in the last place of the exact quotient. *)
Lemma true_div_bounds (c t : Z) :
  0 < c <= t -> t < 2 ^ 44 ->
  exists (m : positive) (e : Z),
    true_div c t = Py.Ok (S754_finite false m e)
    /\ 2 ^ 52 <= Z.pos m < 2 ^ 53
    /\ -96 <= e <= -52
    /\ (Z.pos m - 1) * t <= c * 2 ^ (- e) < (Z.pos m + 1) * t.
Proof.
  intros Hc Ht. unfold true_div.
  replace (t =? 0) with false by (symmetry; apply Z.eqb_neq; lia).
  destruct c as [| pc | pc]; try lia. destruct t as [| pt | pt]; try lia.
  cbn [exact SFdiv xorb]. unfold SFdiv_core_binary.
  set (c := Z.pos pc) in *. set (t := Z.pos pt) in *.
  set (d1 := Zdigits2 c). set (d2 := Zdigits2 t).
  assert (Hd1 : 1 <= d1) by (apply Zdigits2_ge1; lia).
  assert (Hd12 : d1 <= d2) by (apply Zdigits2_le; lia).
  assert (Hd2 : d2 <= 44) by (apply Zdigits2_upper; lia).
  pose proof (Zdigits2_bounds c ltac:(lia)) as Hbc. fold d1 in Hbc.
  pose proof (Zdigits2_bounds t ltac:(lia)) as Hbt. fold d2 in Hbt.
  replace (d1 + 0 - (d2 + 0)) with (d1 - d2) by lia.
  rewrite fexp_normal by lia. change (0 - 0) with 0.
  replace (Z.min (d1 - d2 - 53) 0) with (d1 - d2 - 53) by lia.
  set (s := 53 + d2 - d1).
  replace (0 - (d1 - d2 - 53)) with s by (unfold s; lia).
  assert (Hs : 53 <= s <= 96) by (unfold s; lia).
  destruct s as [| ps | ps] eqn:Es; try lia. rewrite <- Es in *.
  rewrite Z.shiftl_mul_pow2 by lia.
  pose proof (pow2_pos s ltac:(lia)) as Hps.
  assert (Ec : 2 ^ (d1 - 1) * 2 ^ s = 2 ^ 52 * 2 ^ d2).
  { rewrite <- !pow2_split by lia. f_equal. unfold s in *. lia. }
  assert (Ec' : 2 ^ d1 * 2 ^ s = 2 ^ 54 * 2 ^ (d2 - 1)).
  { rewrite <- !pow2_split by lia. f_equal. unfold s in *. lia. }
  pose proof (pow2_pos (d2 - 1) ltac:(lia)) as Hpd2.
  pose proof (pow2_pos (d1 - 1) ltac:(lia)) as Hpd1.
  pose proof (Z.div_mod (c * 2 ^ s) t ltac:(lia)) as Hdm.
  pose proof (Z.mod_pos_bound (c * 2 ^ s) t ltac:(lia)) as Hmod.
  assert (Hq : Z.div_eucl (c * 2 ^ s) t = ((c * 2 ^ s) / t, (c * 2 ^ s) mod t)).
  { unfold Z.div, Z.modulo. now destruct (Z.div_eucl (c * 2 ^ s) t). }
  rewrite Hq. set (q := c * 2 ^ s / t) in *. set (r := (c * 2 ^ s) mod t) in *.
  assert (Hq52 : 2 ^ 52 <= q).
  { apply Z.div_le_lower_bound; [lia |].
    assert (2 ^ (d1 - 1) * 2 ^ s <= c * 2 ^ s)
      by (apply Z.mul_le_mono_nonneg_r; lia).
    assert (t * 2 ^ 52 <= 2 ^ d2 * 2 ^ 52)
      by (apply Z.mul_le_mono_nonneg_r; lia).
    lia. }
  assert (Hq54 : q < 2 ^ 54).
  { apply Z.div_lt_upper_bound; [lia |].
    assert (c * 2 ^ s < 2 ^ d1 * 2 ^ s)
      by (apply Z.mul_lt_mono_pos_r; lia).
    assert (2 ^ d2 = 2 * 2 ^ (d2 - 1)).
    { rewrite <- (Z.pow_succ_r 2 (d2 - 1)) by lia. f_equal. lia. }
    assert (2 ^ (d2 - 1) * 2 ^ 54 <= t * 2 ^ 54)
      by (apply Z.mul_le_mono_nonneg_r; lia).
    lia. }
  assert (Hdq : Zdigits2 q <= 54).
  { apply Zdigits2_upper; [| lia]. pose proof (pow2_pos 52). lia. }
  destruct (binary_round_aux_normal false q (d1 - d2 - 53) (new_location t r))
    as (m & e & Hres & Hm & He & Hb); [assumption | lia | lia |].
  rewrite Hres. exists m, e. split; [reflexivity |]. split; [exact Hm |].
  set (n := e - (d1 - d2 - 53)) in *.
  assert (Hn : 0 <= n) by (unfold n; lia).
  pose proof (pow2_pos n Hn) as Hpn.
  assert (Hqs : q <= 2 ^ s).
  { apply Z.div_le_upper_bound; [lia |].
    apply Z.mul_le_mono_nonneg_r; lia. }
  assert (Hns : n <= s - 52).
  { destruct (Z.le_gt_cases n (s - 52)) as [|Hgt]; [assumption | exfalso].
    assert (H1 : 2 ^ (s - 51) <= 2 ^ n) by (apply Z.pow_le_mono_r; lia).
    assert (H2 : 2 ^ s = 2 ^ 51 * 2 ^ (s - 51)).
    { rewrite <- pow2_split by lia. f_equal. lia. }
    pose proof (pow2_pos (s - 51) ltac:(lia)) as H3.
    assert (H4 : (2 ^ 52 - 1) * 2 ^ (s - 51) <= (Z.pos m - 1) * 2 ^ n).
    { apply Z.mul_le_mono_nonneg; lia. }
    change (2 ^ 52) with (2 * 2 ^ 51) in H4. lia. }
  assert (Ee : - e = s - n) by (unfold n, s in *; lia).
  split; [unfold n, s in *; lia |].
  rewrite Ee.
  assert (Esn : 2 ^ s = 2 ^ (s - n) * 2 ^ n).
  { rewrite <- pow2_split by lia. f_equal. lia. }
  pose proof (pow2_pos (s - n) ltac:(lia)) as Hpsn.
  rewrite Esn in Hdm.
  split.
  - apply (Z.mul_le_mono_pos_r _ _ (2 ^ n)); [assumption |].
    assert (t * ((Z.pos m - 1) * 2 ^ n) <= t * q)
      by (apply Z.mul_le_mono_nonneg_l; lia).
    lia.
  - apply (Z.mul_lt_mono_pos_r (2 ^ n)); [assumption |].
    assert (t * (q + 1) <= t * ((Z.pos m + 1) * 2 ^ n))
      by (apply Z.mul_le_mono_nonneg_l; lia).
    lia.
Qed.

(** *** [... * 100] *)

Lemma of_int_100 : of_int 100 = S754_finite false 7036874417766400 (-46).
Proof. reflexivity. Qed.

(** 100.0 has the mantissa [100 * 2 ^ 46]. *)
Lemma mantissa_100 : 7036874417766400 = 100 * 2 ^ 46.
Proof. reflexivity. Qed.

(** The product of a quotient as above with 100 is again a normal number
    within one unit in the last place of the exact product. *)
Lemma mul_100_bounds (m1 : positive) (e1 : Z) :
  2 ^ 52 <= Z.pos m1 < 2 ^ 53 -> -96 <= e1 <= -52 ->
  exists (m2 : positive) (e2 : Z),
    mul_int (S754_finite false m1 e1) 100 = S754_finite false m2 e2
    /\ 2 ^ 52 <= Z.pos m2 < 2 ^ 53
    /\ e1 - 46 <= e2
    /\ (Z.pos m2 - 1) * 2 ^ (e2 - (e1 - 46)) <= Z.pos m1 * (100 * 2 ^ 46)
         < (Z.pos m2 + 1) * 2 ^ (e2 - (e1 - 46)).
Proof.
  intros Hm1 He1. unfold mul_int. rewrite of_int_100. cbn [SFmul xorb].
  rewrite Pos2Z.inj_mul. rewrite mantissa_100.
  set (P := Z.pos m1 * (100 * 2 ^ 46)).
  assert (HP52 : 2 ^ 52 <= P).
  { unfold P. change (2 ^ 46) with 70368744177664.
    change (2 ^ 52) with 4503599627370496 in *. lia. }
  assert (HP : P < 2 ^ 106).
  { unfold P. change (2 ^ 46) with 70368744177664.
    change (2 ^ 53) with 9007199254740992 in *.
    change (2 ^ 106) with (9007199254740992 * 9007199254740992). lia. }
  assert (HdP : Zdigits2 P <= 106).
  { apply Zdigits2_upper; [| lia]. pose proof (pow2_pos 52). lia. }
  replace (e1 + -46) with (e1 - 46) by lia.
  destruct (binary_round_aux_normal false P (e1 - 46) loc_Exact)
    as (m2 & e2 & Hres & Hm2 & He2 & Hb); [assumption | lia | lia |].
  exists m2, e2. auto.
Qed.

(** *** From the two roundings to the integer percentage *)

(** [A], [B], [C] stand for the powers of two [2 ^ (- e1)],
    [2 ^ (e2 - (e1 - 46))] and [2 ^ (- e2)] of the two results. *)
Lemma rate_arith (c t m1 m2 A B C : Z) :
  0 < c <= t -> t < 2 ^ 44 ->
  2 ^ 52 <= A -> 0 < B <= A -> 0 < C -> B * C = 2 ^ 46 * A ->
  (m1 - 1) * t <= c * A < (m1 + 1) * t ->
  (m2 - 1) * B <= m1 * (100 * 2 ^ 46) < (m2 + 1) * B ->
  100 * c / t - 1 <= m2 / C <= 100 * c / t
  /\ ((100 * c) mod t <> 0 -> m2 / C = 100 * c / t).
Proof.
  intros Hc Ht HA HB HC HBC H1 H2.
  change (2 ^ 44) with 17592186044416 in *.
  change (2 ^ 46) with 70368744177664 in *.
  change (2 ^ 52) with 4503599627370496 in *.
  pose proof (Z.div_mod (100 * c) t ltac:(lia)) as Hdm.
  pose proof (Z.mod_pos_bound (100 * c) t ltac:(lia)) as Hmod.
  set (K := 100 * c / t) in *. set (R := (100 * c) mod t) in *.
  (* the exact products, scaled by [t] *)
  assert (F1 : (m2 - 1) * B * t <= m1 * t * 7036874417766400).
  { assert ((m2 - 1) * B * t <= m1 * (100 * 70368744177664) * t)
      by (apply Z.mul_le_mono_nonneg_r; lia). lia. }
  assert (F2 : m1 * t * 7036874417766400 < (m2 + 1) * B * t).
  { assert (m1 * (100 * 70368744177664) * t < (m2 + 1) * B * t)
      by (apply Z.mul_lt_mono_pos_r; lia). lia. }
  assert (F3 : 100 * c * A = K * t * A + R * A) by (rewrite Hdm; ring).
  assert (F4 : 0 <= R * A <= t * A - A).
  { split; [apply Z.mul_nonneg_nonneg; lia |].
    assert (R * A <= (t - 1) * A) by (apply Z.mul_le_mono_nonneg_r; lia). lia. }
  assert (F5 : B * t <= A * t) by (apply Z.mul_le_mono_nonneg_r; lia).
  assert (F6 : A * t <= A * 17592186044415) by (apply Z.mul_le_mono_nonneg_l; lia).
  assert (HBCt : forall x, x * C * (B * t) = x * t * A * 70368744177664).
  { intros x. replace (x * C * (B * t)) with (x * t * (B * C)) by ring.
    rewrite HBC. ring. }
  (* upper bound *)
  assert (Hup : m2 < C * (K + 1)).
  { destruct (Z.lt_ge_cases m2 (C * (K + 1))) as [|Hge]; [assumption | exfalso].
    assert (G : ((K + 1) * C - 1) * (B * t) <= (m2 - 1) * (B * t))
      by (apply Z.mul_le_mono_nonneg_r; [apply Z.mul_nonneg_nonneg; lia | lia]).
    replace (((K + 1) * C - 1) * (B * t))
      with ((K + 1) * C * (B * t) - B * t) in G by ring.
    rewrite HBCt in G. lia. }
  (* lower bounds *)
  assert (Hlow : C * (K - 1) <= m2).
  { destruct (Z.le_gt_cases (C * (K - 1)) m2) as [|Hlt]; [assumption | exfalso].
    assert (G : (m2 + 1) * (B * t) <= (K - 1) * C * (B * t))
      by (apply Z.mul_le_mono_nonneg_r; [apply Z.mul_nonneg_nonneg; lia | lia]).
    rewrite HBCt in G. lia. }
  split.
  - split.
    + apply Z.div_le_lower_bound; assumption.
    + assert (m2 / C < K + 1) by (apply Z.div_lt_upper_bound; assumption). lia.
  - intros HR.
    assert (HlowK : C * K <= m2).
    { destruct (Z.le_gt_cases (C * K) m2) as [|Hlt]; [assumption | exfalso].
      assert (G : (m2 + 1) * (B * t) <= K * C * (B * t))
        by (apply Z.mul_le_mono_nonneg_r; [apply Z.mul_nonneg_nonneg; lia | lia]).
      rewrite HBCt in G.
      assert (1 * A <= R * A) by (apply Z.mul_le_mono_nonneg_r; lia). lia. }
    assert (K <= m2 / C) by (apply Z.div_le_lower_bound; assumption).
    assert (m2 / C < K + 1) by (apply Z.div_lt_upper_bound; assumption). lia.
Qed.

(** The product cannot reach [2 ^ (-45)] units: it stays below 128. *)
Lemma exponent_arith (c t m1 m2 A B : Z) :
  0 < c <= t -> 2 ^ 52 <= A -> 2 * A <= B ->
  (m1 - 1) * t <= c * A -> 2 ^ 52 <= m2 ->
  (m2 - 1) * B <= m1 * (100 * 2 ^ 46) -> False.
Proof.
  intros Hc HA HB H1 Hm2 H2.
  change (2 ^ 46) with 70368744177664 in *.
  change (2 ^ 52) with 4503599627370496 in *.
  assert (G1 : m1 - 1 <= A).
  { apply (Z.mul_le_mono_pos_r _ _ t); [lia |].
    assert (c * A <= t * A) by (apply Z.mul_le_mono_nonneg_r; lia). lia. }
  assert (G2 : 4503599627370495 * (2 * A) <= (m2 - 1) * B)
    by (apply Z.mul_le_mono_nonneg; lia).
  lia.
Qed.

(** Line 49 for [0 <= completed <= total_tasks] and fewer than [2 ^ 44]
    tasks: no exception, and the integer obtained. *)
Lemma completion_rate_of_bounds (c t : Z) :
  0 <= c <= t -> 0 < t < 2 ^ 44 ->
  exists r : Z,
    completion_rate_of c t = Py.Ok r
    /\ 100 * c / t - 1 <= r <= 100 * c / t
    /\ ((100 * c) mod t <> 0 -> r = 100 * c / t).
Proof.
  intros Hc Ht. unfold completion_rate_of.
  replace (0 <? t) with true by (symmetry; apply Z.ltb_lt; lia).
  destruct (Z.eq_dec c 0) as [-> | Hc0].
  - exists 0. destruct t as [| pt | pt]; try lia.
    split; [reflexivity |]. cbn [Z.mul]. rewrite Z.div_0_l, Z.mod_0_l by lia.
    split; [lia | congruence].
  - destruct (true_div_bounds c t) as (m1 & e1 & Hdiv & Hm1 & He1 & Hb1); [lia | lia |].
    rewrite Hdiv. cbn [mbind Py.result_bind].
    destruct (mul_100_bounds m1 e1 Hm1 He1) as (m2 & e2 & Hmul & Hm2 & He2 & Hb2).
    rewrite Hmul.
    set (A := 2 ^ (- e1)) in *. set (B := 2 ^ (e2 - (e1 - 46))) in *.
    assert (HA : 2 ^ 52 <= A) by (apply Z.pow_le_mono_r; lia).
    assert (He2' : e2 <= -46).
    { destruct (Z.le_gt_cases e2 (-46)) as [|Hgt]; [assumption | exfalso].
      assert (2 * A <= B).
      { unfold A, B. rewrite <- (Z.pow_succ_r 2 (- e1)) by lia.
        apply Z.pow_le_mono_r; lia. }
      apply (exponent_arith c t (Z.pos m1) (Z.pos m2) A B); lia. }
    destruct e2 as [| k | k]; try lia.
    cbn [int cond_Zopp].
    replace (Z.pos k) with (- Z.neg k) by lia.
    set (C := 2 ^ (- Z.neg k)).
    exists (Z.pos m2 / C). split; [reflexivity |].
    assert (HB : 0 < B <= A).
    { split; [apply pow2_pos; lia |]. apply Z.pow_le_mono_r; lia. }
    assert (HC : 0 < C) by (apply pow2_pos; lia).
    assert (HBC : B * C = 2 ^ 46 * A).
    { unfold A, B, C. rewrite <- !pow2_split by lia. f_equal. lia. }
    apply (rate_arith c t (Z.pos m1) (Z.pos m2) A B C); first [assumption | lia].
Qed.

(** When every task is Done the quotient is exactly 1.0 and the rate 100. *)
Lemma completion_rate_of_all (t : Z) : 0 < t -> completion_rate_of t t = Py.Ok 100.
Proof.
  intros Ht. unfold completion_rate_of, true_div.
  replace (0 <? t) with true by (symmetry; apply Z.ltb_lt; lia).
  replace (t =? 0) with false by (symmetry; apply Z.eqb_neq; lia).
  destruct t as [| pt | pt]; try lia.
  cbn [exact SFdiv xorb]. unfold SFdiv_core_binary.
  replace (Zdigits2 (Z.pos pt) + 0 - (Zdigits2 (Z.pos pt) + 0)) with 0 by lia.
  change (Z.min (fexp prec emax 0) (0 - 0)) with (-53).
  change (0 - 0 - -53) with 53.
  rewrite Z.shiftl_mul_pow2 by lia.
  assert (Hq : Z.div_eucl (Z.pos pt * 2 ^ 53) (Z.pos pt) = (2 ^ 53, 0)).
  { pose proof (Z.div_mul (2 ^ 53) (Z.pos pt) ltac:(lia)) as Hd.
    pose proof (Z.mod_mul (2 ^ 53) (Z.pos pt) ltac:(lia)) as Hm.
    rewrite (Z.mul_comm (2 ^ 53)) in Hd, Hm. unfold Z.div in Hd. unfold Z.modulo in Hm.
    destruct (Z.div_eucl (Z.pos pt * 2 ^ 53) (Z.pos pt)). congruence. }
  rewrite Hq.
  assert (Hloc : new_location (Z.pos pt) 0 = loc_Exact).
  { unfold new_location, new_location_even, new_location_odd.
    now destruct (Z.even (Z.pos pt)). }
  rewrite Hloc. reflexivity.
Qed.

End Binary64.

(** ** The KPI block of the dashboard *)

Section Kpi.
Import Pandas.

Lemma select_Done (l : list Task) :
  select l (eq_mask (map (fun t => str (Status t)) l) (str "Done")) =
    filter (fun t => Status t = "Done") l.
Proof.
  induction l as [| t l IH]; [reflexivity |].
  cbn [map eq_mask select]. fold (eq_mask (map (fun t => str (Status t)) l) (str "Done")).
  rewrite IH. case_bool_decide as H.
  - rewrite filter_cons_True by congruence. reflexivity.
  - rewrite filter_cons_False by congruence. reflexivity.
Qed.

Lemma count_done_bounds (l : list Task) : 0 <= Spec.count_done l <= Py.len l.
Proof.
  unfold Spec.count_done, Py.len.
  pose proof (length_filter (fun t => Status t = "Done") l). lia.
Qed.

(** Lines 46-48 on a non-empty task list. *)
Lemma task_counts_nonempty (l : list Task) :
  l <> [] ->
  task_counts (DataFrame_of l) =
    Py.Ok (Py.len l, Spec.count_done l, Py.len l - Spec.count_done l).
Proof.
  intros Hne. unfold task_counts. rewrite getitem_Status by assumption.
  cbn [mbind Py.result_bind]. unfold len, getitem_mask. cbn [rows].
  destruct l as [| t l]; [congruence |]. cbn [DataFrame_of rows].
  rewrite select_Done. reflexivity.
Qed.

Lemma task_counts_empty : task_counts (DataFrame_of []) = Py.Raise (Py.KeyError "Status").
Proof. reflexivity. Qed.

(** Line 49 never raises ZeroDivisionError. *)
Lemma completion_rate_of_no_zero_division (c t : Z) :
  completion_rate_of c t <> Py.Raise Py.ZeroDivisionError.
Proof.
  unfold completion_rate_of. destruct (0 <? t) eqn:E; [| discriminate].
  apply Z.ltb_lt in E. unfold PyFloat.true_div.
  replace (t =? 0) with false by (symmetry; apply Z.eqb_neq; lia).
  destruct (SFdiv PyFloat.prec PyFloat.emax (PyFloat.exact c) (PyFloat.exact t));
    cbn [mbind Py.result_bind]; try discriminate;
    unfold PyFloat.int;
    destruct (PyFloat.mul_int _ 100) as [| | | ? ? []]; discriminate.
Qed.

Lemma compute_kpis_no_zero_division (df : DataFrame) :
  compute_kpis df <> Py.Raise Py.ZeroDivisionError.
Proof.
  unfold compute_kpis, task_counts, getitem.
  case_decide; cbn [mbind Py.result_bind]; [| discriminate].
  pose proof (completion_rate_of_no_zero_division
    (len (getitem_mask df
       (eq_mask (omap (fun t => get t "Status") (rows df)) (str "Done"))))
    (len df)) as Hrate.
  destruct (completion_rate_of _ _) as [r | e]; cbn [mbind Py.result_bind];
    [discriminate | congruence].
Qed.

Lemma dashboard_no_zero_division (st : session_state) :
  dashboard st <> Py.Raise Py.ZeroDivisionError.
Proof.
  unfold dashboard. destruct (tasks st) as [| t l]; [discriminate |].
  pose proof (compute_kpis_no_zero_division (DataFrame_of (t :: l))) as H.
  destruct (compute_kpis _) as [k | e]; cbn [mbind Py.result_bind]; [| congruence].
  unfold subj_counts, status_counts.
  rewrite getitem_Subject, getitem_Status by discriminate.
  discriminate.
Qed.

(** Lines 46-49 on a non-empty list of fewer than [2 ^ 44] tasks. *)
Lemma compute_kpis_nonempty (l : list Task) :
  l <> [] -> Py.len l < 2 ^ 44 ->
  exists r : Z,
    compute_kpis (DataFrame_of l) =
      Py.Ok {| total_tasks := Py.len l; completed := Spec.count_done l;
               pending := Py.len l - Spec.count_done l; completion_rate := r |}
    /\ completion_rate_of (Spec.count_done l) (Py.len l) = Py.Ok r.
Proof.
  intros Hne Hlen. unfold compute_kpis. rewrite task_counts_nonempty by assumption.
  cbn [mbind Py.result_bind].
  assert (0 < Py.len l) by (destruct l; [congruence | unfold Py.len; cbn [length]; lia]).
  destruct (completion_rate_of_bounds (Spec.count_done l) (Py.len l))
    as (r & Hr & _); [apply count_done_bounds | lia |].
  exists r. rewrite Hr. split; reflexivity.
Qed.

End Kpi.

(** C1, as amended: for every task collection with [0 < totalTasks < 2 ^ 44]
    the KPI block returns, without raising, a completionRatePercent that is
    [int((countDone / totalTasks) * 100)]: the percentage cut off toward
    zero, not rounded to the nearest integer.  It never exceeds
    [floor(100 * countDone / totalTasks)], equals it whenever
    [100 * countDone] is not a multiple of [totalTasks], and is otherwise at
    most one below it; it is 0 when no task is Done and 100 when all are.
    For two tasks with statuses Done and Pending it is 50. *)
Theorem completion_rate_truncates (l : list Task) :
  l <> [] -> Py.len l < 2 ^ 44 ->
  let done := Spec.count_done l in
  let total := Py.len l in
  exists r : Z,
    compute_kpis (Pandas.DataFrame_of l) =
      Py.Ok {| total_tasks := total; completed := done;
               pending := total - done; completion_rate := r |}
    /\ 100 * done / total - 1 <= r <= 100 * done / total
    /\ ((100 * done) mod total <> 0 -> r = 100 * done / total)
    /\ (done = 0 -> r = 0)
    /\ (done = total -> r = 100)
    /\ compute_kpis (Pandas.DataFrame_of
          [set_Status "Done" (new_task "Math" "c1" "" a_date "Low");
           new_task "Math" "c2" "" a_date "Low"]) =
        Py.Ok {| total_tasks := 2; completed := 1; pending := 1;
                 completion_rate := 50 |}.
Proof.
  intros Hne Hlen. cbv zeta.
  destruct (compute_kpis_nonempty l Hne Hlen) as (r & Hk & Hr).
  exists r. split; [exact Hk |].
  assert (Hpos : 0 < Py.len l)
    by (destruct l; [congruence | unfold Py.len; cbn [length]; lia]).
  destruct (completion_rate_of_bounds (Spec.count_done l) (Py.len l))
    as (r' & Hr' & Hb & Hex); [apply count_done_bounds | lia |].
  assert (r' = r) as -> by congruence.
  split; [exact Hb |]. split; [exact Hex |]. split; [| split].
  - intros H0. rewrite H0 in Hr. unfold completion_rate_of in Hr.
    replace (0 <? Py.len l) with true in Hr by (symmetry; apply Z.ltb_lt; lia).
    destruct (Py.len l) as [| p | p]; try lia. cbv in Hr. congruence.
  - intros Hall. rewrite Hall, completion_rate_of_all in Hr by lia. congruence.
  - reflexivity.
Qed.

(** C1, witness: the two tasks of the scenario, one Done and one Pending. *)
Lemma completion_rate_truncates_witness :
  let l := [set_Status "Done" (new_task "Math" "c1" "" a_date "Low");
            new_task "Math" "c2" "" a_date "Low"] in
  let done := Spec.count_done l in
  let total := Py.len l in
  exists r : Z,
    compute_kpis (Pandas.DataFrame_of l) =
      Py.Ok {| total_tasks := total; completed := done;
               pending := total - done; completion_rate := r |}
    /\ 100 * done / total - 1 <= r <= 100 * done / total
    /\ ((100 * done) mod total <> 0 -> r = 100 * done / total)
    /\ (done = 0 -> r = 0)
    /\ (done = total -> r = 100)
    /\ compute_kpis (Pandas.DataFrame_of
          [set_Status "Done" (new_task "Math" "c1" "" a_date "Low");
           new_task "Math" "c2" "" a_date "Low"]) =
        Py.Ok {| total_tasks := 2; completed := 1; pending := 1;
                 completion_rate := 50 |}.
Proof.
  apply (completion_rate_truncates
           [set_Status "Done" (new_task "Math" "c1" "" a_date "Low");
            new_task "Math" "c2" "" a_date "Low"]).
  - discriminate.
  - reflexivity.
Defined.

(** C1, counterexample: with two of three tasks Done the exact percentage is
    66.67; its nearest integer is 67, and the KPI block returns 66. *)
Lemma two_of_three_gives_66 :
  let l := [set_Status "Done" (new_task "Math" "c1" "" a_date "Low");
            set_Status "Done" (new_task "Math" "c2" "" a_date "Low");
            new_task "Math" "c3" "" a_date "Low"] in
  compute_kpis (Pandas.DataFrame_of l) =
    Py.Ok {| total_tasks := 3; completed := 2; pending := 1; completion_rate := 66 |}
  /\ Spec.nearest_percent 67 2 3
  /\ ~ Spec.nearest_percent 66 2 3.
Proof.
  split; [reflexivity |]. unfold Spec.nearest_percent. split; lia.
Qed.

(** The scenario of the specification, and a case where the two roundings
    of the floating-point product lose a whole percent. *)
Example completion_rate_scenarios :
  compute_kpis (Pandas.DataFrame_of
    [set_Status "Done" (new_task "Math" "c1" "" a_date "Low");
     new_task "Math" "c2" "" a_date "Low"]) =
    Py.Ok {| total_tasks := 2; completed := 1; pending := 1; completion_rate := 50 |}
  /\ completion_rate_of 29 100 = Py.Ok 28.
Proof. split; reflexivity. Qed.

(** C6, as amended: for every non-empty task sequence, lines 46-48 return
    [total] the number of tasks, [completed] the number of tasks whose
    status is Done and [pending = total - completed], so that
    [completed + pending = total], with both parts between 0 and [total];
    every KPI record that the block returns carries these three numbers, and
    the block returns a record whenever the sequence has fewer than [2 ^ 44]
    tasks.  The empty sequence is left out: the block returns nothing for
    it. *)
Theorem kpi_completed_plus_pending (l : list Task) :
  l <> [] ->
  let total := Py.len l in
  let done := Spec.count_done l in
  task_counts (Pandas.DataFrame_of l) = Py.Ok (total, done, total - done)
  /\ done + (total - done) = total
  /\ 0 <= done <= total
  /\ 0 <= total - done <= total
  /\ (forall k, compute_kpis (Pandas.DataFrame_of l) = Py.Ok k ->
        total_tasks k = total
        /\ completed k = done
        /\ pending k = total_tasks k - completed k
        /\ completed k + pending k = total_tasks k)
  /\ (total < 2 ^ 44 -> exists k, compute_kpis (Pandas.DataFrame_of l) = Py.Ok k).
Proof.
  intros Hne. cbv zeta. pose proof (count_done_bounds l) as Hb.
  split; [now apply task_counts_nonempty |].
  split; [lia |]. split; [lia |]. split; [lia |]. split.
  - intros k Hk. unfold compute_kpis in Hk.
    rewrite task_counts_nonempty in Hk by exact Hne.
    cbn [mbind Py.result_bind] in Hk.
    destruct (completion_rate_of _ _) as [r | e]; cbn [mbind Py.result_bind] in Hk;
      [| discriminate].
    injection Hk as <-. cbn [total_tasks completed pending]. lia.
  - intros Hlen. destruct (compute_kpis_nonempty l Hne Hlen) as (r & Hk & _).
    eexists. exact Hk.
Qed.

(** C6, witness: three tasks, one Done, one Pending, one In Progress. *)
Lemma kpi_completed_plus_pending_witness :
  let l := [set_Status "Done" (new_task "Math" "c1" "" a_date "Low");
            new_task "Math" "c2" "" a_date "Low";
            set_Status "In Progress" (new_task "Math" "c3" "" a_date "Low")] in
  let total := Py.len l in
  let done := Spec.count_done l in
  task_counts (Pandas.DataFrame_of l) = Py.Ok (total, done, total - done)
  /\ done + (total - done) = total
  /\ 0 <= done <= total
  /\ 0 <= total - done <= total
  /\ (forall k, compute_kpis (Pandas.DataFrame_of l) = Py.Ok k ->
        total_tasks k = total
        /\ completed k = done
        /\ pending k = total_tasks k - completed k
        /\ completed k + pending k = total_tasks k)
  /\ (total < 2 ^ 44 -> exists k, compute_kpis (Pandas.DataFrame_of l) = Py.Ok k).
Proof.
  apply (kpi_completed_plus_pending
           [set_Status "Done" (new_task "Math" "c1" "" a_date "Low");
            new_task "Math" "c2" "" a_date "Low";
            set_Status "In Progress" (new_task "Math" "c3" "" a_date "Low")]).
  discriminate.
Defined.

(** C6, counterexample: on the empty sequence the KPI computation gives no
    total, no completed and no pending to add up: line 47 stops at
    [df['Status']] with a KeyError, and so does the whole block, instead of
    returning 0, 0 and 0. *)
Lemma empty_sequence_has_no_counts :
  task_counts (Pandas.DataFrame_of []) = Py.Raise (Py.KeyError "Status")
  /\ task_counts (Pandas.DataFrame_of []) <> Py.Ok (0, 0, 0)
  /\ compute_kpis (Pandas.DataFrame_of []) = Py.Raise (Py.KeyError "Status").
Proof. split; [reflexivity |]. split; [discriminate | reflexivity]. Qed.

Example kpi_counts_scenario :
  task_counts (Pandas.DataFrame_of
    [set_Status "Done" (new_task "Math" "c1" "" a_date "Low");
     new_task "Math" "c2" "" a_date "Low";
     set_Status "In Progress" (new_task "Math" "c3" "" a_date "Low")]) =
    Py.Ok (3, 1, 2).
Proof. reflexivity. Qed.

(** C7, as amended: on the empty task sequence the dashboard runs no KPI
    computation; it shows the welcome message and the fixed demo metrics
    (lines 46-49 on the empty frame would stop at [df['Status']] with a
    KeyError, before any division).  The division by [total_tasks] is
    guarded: line 49 yields 0 when [total_tasks] is 0, and neither line 49,
    nor the KPI block, nor the dashboard raises ZeroDivisionError on any
    input. *)
Theorem empty_store_shows_demo (r : list Resource) :
  dashboard {| tasks := []; resources := r |} =
    Py.Ok (Demo_View
      (st_info "👋 Welcome! Go to the 'Task Planner' tab to add your first study goal.")
      demo_metrics)
  /\ compute_kpis (Pandas.DataFrame_of []) = Py.Raise (Py.KeyError "Status")
  /\ (forall c, completion_rate_of c 0 = Py.Ok 0)
  /\ (forall c t, completion_rate_of c t <> Py.Raise Py.ZeroDivisionError)
  /\ (forall df, compute_kpis df <> Py.Raise Py.ZeroDivisionError)
  /\ (forall st, dashboard st <> Py.Raise Py.ZeroDivisionError).
Proof.
  split; [reflexivity |]. split; [reflexivity |]. split; [reflexivity |].
  split; [apply completion_rate_of_no_zero_division |].
  split; [apply compute_kpis_no_zero_division | apply dashboard_no_zero_division].
Qed.

(** C7, counterexample: with no task the dashboard yields the demo view,
    whose "Pending Tasks" metric reads 5, and the KPI block on the empty
    frame raises KeyError instead of yielding the all-zero record. *)
Lemma empty_store_yields_no_kpis :
  dashboard initial_state =
    Py.Ok (Demo_View
      (st_info "👋 Welcome! Go to the 'Task Planner' tab to add your first study goal.")
      [("Pending Tasks", "5", "-2"); ("Study Hours", "12.5", "+3.2");
       ("Next Exam", "2 Days", "Math")])
  /\ compute_kpis (Pandas.DataFrame_of (tasks initial_state)) =
       Py.Raise (Py.KeyError "Status")
  /\ compute_kpis (Pandas.DataFrame_of (tasks initial_state)) <>
       Py.Ok {| total_tasks := 0; completed := 0; pending := 0; completion_rate := 0 |}.
Proof. split; [reflexivity |]. split; [reflexivity | discriminate]. Qed.

(** ** The session dict across runs *)

Section Session.

Lemma init_session_tasks (d : gmap string stored) : is_Some (init_session d !! "tasks").
Proof.
  unfold init_session.
  destruct (d !! "tasks") as [v |] eqn:Ht.
  - destruct (d !! "resources") eqn:Hr.
    + rewrite Ht. eauto.
    + rewrite lookup_insert_ne by discriminate. rewrite Ht. eauto.
  - destruct (<["tasks" := Tasks_value []]> d !! "resources") eqn:Hr.
    + rewrite lookup_insert_eq. eauto.
    + rewrite lookup_insert_ne by discriminate. rewrite lookup_insert_eq. eauto.
Qed.

Lemma init_session_resources (d : gmap string stored) :
  is_Some (init_session d !! "resources").
Proof.
  unfold init_session.
  match goal with |- context [match ?m !! "resources" with _ => _ end] =>
    destruct (m !! "resources") eqn:Hr
  end.
  - rewrite Hr. eauto.
  - rewrite lookup_insert_eq. eauto.
Qed.

Lemma init_session_keeps (d : gmap string stored) k v :
  d !! k = Some v -> init_session d !! k = Some v.
Proof.
  intros Hk. unfold init_session.
  assert (H1 : match d !! "tasks" with
               | Some _ => d
               | None => <["tasks" := Tasks_value []]> d
               end !! k = Some v).
  { destruct (d !! "tasks") eqn:Ht; [exact Hk |].
    rewrite lookup_insert_ne; [exact Hk | congruence]. }
  match goal with |- context [match ?m !! "resources" with _ => _ end] =>
    destruct (m !! "resources") eqn:Hr
  end; [exact H1 |].
  rewrite lookup_insert_ne; [exact H1 | congruence].
Qed.

Lemma init_session_fixed (d : gmap string stored) :
  is_Some (d !! "tasks") -> is_Some (d !! "resources") -> init_session d = d.
Proof.
  intros [t Ht] [r Hr]. unfold init_session. now rewrite Ht, Hr.
Qed.

End Session.

(** X1: the initialisation at the top of the script only fills in what is
    missing.  Whatever the session dict holds, every entry it has is still
    there with the same value afterwards, both keys are present, and running
    the initialisation again changes nothing; on the empty dict it gives the
    two empty lists, and on a dict that holds a task list and a resource
    list it is the identity, so a later run never resets the stored data. *)
Theorem init_session_never_resets (d : gmap string stored) :
  (forall k v, d !! k = Some v -> init_session d !! k = Some v)
  /\ is_Some (init_session d !! "tasks")
  /\ is_Some (init_session d !! "resources")
  /\ init_session (init_session d) = init_session d
  /\ init_session ∅ = session_dict_of initial_state
  /\ (forall st, init_session (session_dict_of st) = session_dict_of st).
Proof.
  split; [apply init_session_keeps |].
  split; [apply init_session_tasks |].
  split; [apply init_session_resources |].
  split; [| split].
  - apply init_session_fixed;
      [apply init_session_tasks | apply init_session_resources].
  - unfold init_session, session_dict_of.
    rewrite lookup_empty, lookup_insert_ne by discriminate.
    now rewrite lookup_empty.
  - intros st. apply init_session_fixed; unfold session_dict_of.
    + rewrite lookup_insert_ne by discriminate. rewrite lookup_insert_eq. eauto.
    + rewrite lookup_insert_eq. eauto.
Qed.

(** ** get_subjects and the subject select box *)

Section Subjects.

Lemma get_subjects_nonempty (st : session_state) : get_subjects st <> [].
Proof.
  unfold get_subjects. destruct (tasks st) as [| t0 l]; [discriminate |].
  intros Hnil. apply elements_empty_inv in Hnil.
  assert (Subject t0 ∈ (list_to_set (map Subject (t0 :: l)) : gset string)) as Hin.
  { apply elem_of_list_to_set. simpl. left. }
  rewrite Hnil in Hin. now apply not_elem_of_empty in Hin.
Qed.

Lemma elem_of_get_subjects (st : session_state) (s : string) :
  tasks st <> [] ->
  (s ∈ get_subjects st <-> exists t, t ∈ tasks st /\ Subject t = s).
Proof.
  intros Hne. unfold get_subjects. destruct (tasks st) as [| t0 l]; [congruence |].
  rewrite elem_of_elements, elem_of_list_to_set, list_elem_of_fmap.
  split; intros (t & H1 & H2); exists t; auto.
Qed.

Lemma NoDup_get_subjects (st : session_state) : NoDup (get_subjects st).
Proof.
  unfold get_subjects. destruct (tasks st) as [| t0 l].
  - unfold default_subjects. apply (bool_decide_unpack _). vm_compute. exact I.
  - apply NoDup_elements.
Qed.

Lemma hub_subjects_eq (st : session_state) : hub_subjects st = get_subjects st.
Proof.
  unfold hub_subjects. pose proof (get_subjects_nonempty st) as H.
  now destruct (get_subjects st).
Qed.

End Subjects.

(** X2: the "General" fallback of the Resource Hub is never taken.  For
    every session state the options of its subject select box are exactly
    what [get_subjects] returns, there is always at least one option, and
    "General" is offered only when a stored task has that subject. *)
Theorem hub_subjects_never_falls_back (st : session_state) :
  hub_subjects st = get_subjects st
  /\ hub_subjects st <> []
  /\ ("General" ∈ hub_subjects st <->
        exists t, t ∈ tasks st /\ Subject t = "General").
Proof.
  rewrite hub_subjects_eq. split; [reflexivity |].
  split; [apply get_subjects_nonempty |].
  destruct (tasks st) as [| t0 l] eqn:E.
  - unfold get_subjects. rewrite E. unfold default_subjects. split.
    + intros H. repeat (apply elem_of_cons in H as [H | H]; [discriminate |]).
      now apply elem_of_nil in H.
    + intros (t & Ht & _). now apply elem_of_nil in Ht.
  - rewrite <- E. apply elem_of_get_subjects. rewrite E. discriminate.
Qed.

(** X3: what adding a task does to the subject list.  After a successful
    Add Task the subjects are the new task's subject together with the
    subjects of the tasks stored before, without duplicates; the four
    defaults are offered only while the store is empty, so after the first
    task the list is that task's subject alone. *)
Theorem get_subjects_after_add_task
    (subject chapter topic : string) (due_date : Py.date) (priority : string)
    (st : session_state) :
  subject <> "" -> chapter <> "" ->
  let st' := (add_task_button subject chapter topic due_date priority st).2 in
  NoDup (get_subjects st')
  /\ (forall s, s ∈ get_subjects st' <->
        s = subject \/ exists t, t ∈ tasks st /\ Subject t = s)
  /\ (tasks st = [] -> get_subjects st' = [subject]).
Proof.
  intros Hs Hc. cbv zeta. rewrite add_task_accepts by assumption. cbn [snd].
  split; [apply NoDup_get_subjects |]. split.
  - intros s. rewrite elem_of_get_subjects by (cbn [tasks]; now destruct (tasks st)).
    cbn [tasks]. split.
    + intros (t & Ht & <-). apply elem_of_app in Ht as [Ht | Ht].
      * right. now exists t.
      * left. apply list_elem_of_singleton in Ht. now subst t.
    + intros [-> | (t & Ht & <-)].
      * eexists. split; [apply elem_of_app; right; apply list_elem_of_singleton;
                         reflexivity | reflexivity].
      * exists t. split; [apply elem_of_app; now left | reflexivity].
  - intros E. unfold get_subjects. cbn [tasks]. rewrite E. cbn [app map new_task Subject].
    cbn [list_to_set foldr]. rewrite (right_id_L ∅ (∪)). apply elements_singleton.
Qed.

(** X3, witness: the first task, with subject "Chemistry", on the empty
    store. *)
Lemma get_subjects_after_add_task_witness :
  let st' := (add_task_button "Chemistry" "Ch1" "" a_date "High" initial_state).2 in
  NoDup (get_subjects st')
  /\ (forall s, s ∈ get_subjects st' <->
        s = "Chemistry" \/ exists t, t ∈ tasks initial_state /\ Subject t = s)
  /\ (tasks initial_state = [] -> get_subjects st' = ["Chemistry"]).
Proof.
  apply (get_subjects_after_add_task "Chemistry" "Ch1" "" a_date "High" initial_state);
    discriminate.
Defined.

(** ** The Resource Hub: what is listed under a subject *)

Section Hub.

Implicit Types (s : string) (rs : list Resource) (res : Resource) (lib : streamlit).

(** The links of subject [s], and the line written for one of them. *)
Local Abbreviation link_of s := (fun res => res_Type res = "Link" /\ res_Subject res = s).
Local Abbreviation video_of s := (fun res => res_Type res = "Video" /\ res_Subject res = s).
Local Abbreviation line_of := (fun res => link_markdown (default "" (res_Desc res)) (res_Content res)).

Lemma link_test s res :
  bool_decide (res_Type res = "Link") && bool_decide (res_Subject res = s) = true
  <-> res_Type res = "Link" /\ res_Subject res = s.
Proof. rewrite andb_true_iff, !bool_decide_eq_true. reflexivity. Qed.

Lemma video_test s res :
  bool_decide (res_Type res = "Video") && bool_decide (res_Subject res = s) = true
  <-> res_Type res = "Video" /\ res_Subject res = s.
Proof. rewrite andb_true_iff, !bool_decide_eq_true. reflexivity. Qed.

(** The loop over a list that was extended is the loop over the old list
    followed by the loop over the extension. *)
Lemma display_links_app s rs1 rs2 :
  display_links s (rs1 ++ rs2) =
    (shown1 ← display_links s rs1;
     shown2 ← display_links s rs2;
     Py.Ok (shown1 ++ shown2)).
Proof.
  induction rs1 as [| res rs1 IH]; cbn [app display_links].
  - cbn [mbind Py.result_bind]. now destruct (display_links s rs2).
  - destruct (bool_decide (res_Type res = "Link")
              && bool_decide (res_Subject res = s)); [| exact IH].
    destruct (getitem_Desc res) as [d | e]; cbn [mbind Py.result_bind]; [| reflexivity].
    rewrite IH. destruct (display_links s rs1) as [a | e];
      cbn [mbind Py.result_bind]; [| reflexivity].
    destruct (display_links s rs2) as [b | e]; reflexivity.
Qed.

Lemma display_videos_app lib s rs1 rs2 :
  display_videos lib s (rs1 ++ rs2) =
    (shown1 ← display_videos lib s rs1;
     shown2 ← display_videos lib s rs2;
     Py.Ok (shown1 ++ shown2)).
Proof.
  induction rs1 as [| res rs1 IH]; cbn [app display_videos].
  - cbn [mbind Py.result_bind]. now destruct (display_videos lib s rs2).
  - destruct (bool_decide (res_Type res = "Video")
              && bool_decide (res_Subject res = s)); [| exact IH].
    destruct (st_video lib (res_Content res)) as [[] | e];
      cbn [mbind Py.result_bind]; [| reflexivity].
    rewrite IH. destruct (display_videos lib s rs1) as [a | e];
      cbn [mbind Py.result_bind]; [| reflexivity].
    destruct (display_videos lib s rs2) as [b | e]; reflexivity.
Qed.

(** When [st.video] takes every video of the subject, the loop shows them
    all, in store order. *)
Lemma display_videos_filter lib s rs :
  Forall (fun res => video_of s res -> st_video lib (res_Content res) = Py.Ok tt) rs ->
  display_videos lib s rs = Py.Ok (map res_Content (filter (video_of s) rs)).
Proof.
  induction 1 as [| res rs Hres _ IH]; [reflexivity |]. cbn [display_videos].
  destruct (bool_decide (res_Type res = "Video")
            && bool_decide (res_Subject res = s)) eqn:E.
  - apply video_test in E. rewrite filter_cons_True by exact E.
    rewrite (Hres E), IH. reflexivity.
  - rewrite filter_cons_False; [exact IH |].
    intros H. apply video_test in H. congruence.
Qed.

(** One more link at the end of the list: the video loop does not see it. *)
Lemma display_videos_snoc_link lib s' s url desc rs :
  display_videos lib s' (rs ++ [{| res_Subject := s; res_Type := "Link";
                                   res_Content := url; res_Desc := Some desc |}]) =
    display_videos lib s' rs.
Proof.
  rewrite display_videos_app. cbn [display_videos res_Type].
  rewrite (bool_decide_eq_false_2 ("Link" = "Video")) by discriminate.
  cbn [andb]. destruct (display_videos lib s' rs) as [a | e];
    cbn [mbind Py.result_bind]; [| reflexivity].
  now rewrite app_nil_r.
Qed.

(** One more video at the end of the list. *)
Lemma display_videos_snoc_video lib s' s url rs :
  display_videos lib s' (rs ++ [{| res_Subject := s; res_Type := "Video";
                                   res_Content := url; res_Desc := None |}]) =
    if decide (s' = s) then
      shown ← display_videos lib s' rs;
      _ ← st_video lib url;
      Py.Ok (shown ++ [url])
    else display_videos lib s' rs.
Proof.
  rewrite display_videos_app. cbn [display_videos res_Type res_Subject res_Content].
  rewrite (bool_decide_eq_true_2 ("Video" = "Video")) by reflexivity. cbn [andb].
  case_decide as Hs.
  - rewrite bool_decide_eq_true_2 by congruence.
    destruct (display_videos lib s' rs) as [a | e]; cbn [mbind Py.result_bind];
      [| reflexivity].
    destruct (st_video lib url) as [[] | e]; reflexivity.
  - rewrite bool_decide_eq_false_2 by congruence.
    destruct (display_videos lib s' rs) as [a | e]; cbn [mbind Py.result_bind];
      [| reflexivity].
    now rewrite app_nil_r.
Qed.

(** When every link of the subject has a description, the loop writes one
    line per link, in store order. *)
Lemma display_links_filter s rs :
  Forall (fun res => link_of s res -> is_Some (res_Desc res)) rs ->
  display_links s rs = Py.Ok (map line_of (filter (link_of s) rs)).
Proof.
  induction 1 as [| res rs Hres _ IH]; [reflexivity |]. cbn [display_links].
  destruct (bool_decide (res_Type res = "Link")
            && bool_decide (res_Subject res = s)) eqn:E.
  - apply link_test in E. rewrite filter_cons_True by exact E.
    destruct (Hres E) as [d Hd]. unfold getitem_Desc. cbn [map].
    rewrite Hd, IH. reflexivity.
  - rewrite filter_cons_False; [exact IH |].
    intros H. apply link_test in H. congruence.
Qed.

(** A link of the subject without description stops the loop. *)
Lemma display_links_raises s rs :
  Exists (fun res => link_of s res /\ res_Desc res = None) rs ->
  display_links s rs = Py.Raise (Py.KeyError "Desc").
Proof.
  induction 1 as [res rs [Hl Hd] | res rs _ IH]; cbn [display_links].
  - apply link_test in Hl. rewrite Hl. unfold getitem_Desc. now rewrite Hd.
  - destruct (bool_decide (res_Type res = "Link")
              && bool_decide (res_Subject res = s)); [| exact IH].
    unfold getitem_Desc. destruct (res_Desc res); [| reflexivity].
    cbn [mbind Py.result_bind]. now rewrite IH.
Qed.

Lemma links_described_or_not s rs :
  Forall (fun res => link_of s res -> is_Some (res_Desc res)) rs
  \/ Exists (fun res => link_of s res /\ res_Desc res = None) rs.
Proof.
  induction rs as [| res rs [IH | IH]].
  - left. constructor.
  - destruct (res_Desc res) as [d |] eqn:Hd.
    + left. constructor; [eauto | exact IH].
    + destruct (decide (res_Type res = "Link" /\ res_Subject res = s)) as [Hl | Hl].
      * right. now left.
      * left. constructor; [tauto | exact IH].
  - right. now right.
Qed.

(** Every resource the script stores is well formed. *)
Lemma step_resources st e :
  resources (step st e) = resources st
  \/ exists res, resources (step st e) = resources st ++ [res] /\ well_formed res.
Proof.
  destruct e as [subject chapter topic due_date priority | f edits | s u d | s u | ];
    cbn [step]; try (left; reflexivity).
  - left. unfold add_task_button.
    now destruct (Py.truthy subject && Py.truthy chapter).
  - left. now rewrite todo_list_keeps_state.
  - right. eexists. split; [reflexivity |]. left. cbn. eauto.
  - right. eexists. split; [reflexivity |]. right. cbn. eauto.
Qed.

Lemma fold_step_well_formed events st :
  Forall well_formed (resources st) ->
  Forall well_formed (resources (fold_left step events st)).
Proof.
  revert st. induction events as [| e events IH]; intros st H; cbn [fold_left];
    [exact H |].
  apply IH. destruct (step_resources st e) as [-> | (res & -> & Hres)]; [exact H |].
  apply Forall_app. split; [exact H | now constructor].
Qed.

Lemma run_well_formed events : Forall well_formed (resources (run events)).
Proof. apply fold_step_well_formed. constructor. Qed.

Lemma well_formed_described s rs :
  Forall well_formed rs ->
  Forall (fun res => link_of s res -> is_Some (res_Desc res)) rs.
Proof.
  intros H. eapply Forall_impl; [exact H |].
  intros res [[_ Hd] | [Hv _]] [Hl _]; [exact Hd | congruence].
Qed.

Lemma well_formed_partition s rs :
  Forall well_formed rs ->
  (length (filter (link_of s) rs) + length (filter (video_of s) rs))%nat =
    length (filter (fun res => res_Subject res = s) rs).
Proof.
  induction 1 as [| res rs Hres _ IH]; [reflexivity |].
  destruct (decide (res_Subject res = s)) as [Hs | Hs].
  - rewrite (filter_cons_True (fun res => res_Subject res = s)) by exact Hs.
    destruct Hres as [[Hl _] | [Hv _]].
    + rewrite (filter_cons_True (link_of s)) by tauto.
      rewrite (filter_cons_False (video_of s)) by (intros [? _]; congruence).
      cbn [length]. lia.
    + rewrite (filter_cons_False (link_of s)) by (intros [? _]; congruence).
      rewrite (filter_cons_True (video_of s)) by tauto.
      cbn [length]. lia.
  - rewrite (filter_cons_False (fun res => res_Subject res = s)) by exact Hs.
    rewrite (filter_cons_False (link_of s)), (filter_cons_False (video_of s)) by tauto.
    exact IH.
Qed.

Lemma run_links_ok events s :
  exists links, display_links s (resources (run events)) = Py.Ok links.
Proof.
  eexists. apply display_links_filter, well_formed_described, run_well_formed.
Qed.

(** One more link at the end of the list. *)
Lemma display_links_snoc_link s' s url desc rs :
  display_links s' (rs ++ [{| res_Subject := s; res_Type := "Link";
                              res_Content := url; res_Desc := Some desc |}]) =
    if decide (s' = s) then
      shown ← display_links s' rs; Py.Ok (shown ++ [link_markdown desc url])
    else display_links s' rs.
Proof.
  rewrite display_links_app. cbn [display_links res_Type res_Subject].
  rewrite (bool_decide_eq_true_2 ("Link" = "Link")) by reflexivity. cbn [andb].
  case_decide as Hs.
  - rewrite bool_decide_eq_true_2 by congruence.
    cbn [getitem_Desc res_Desc res_Content mbind Py.result_bind]. reflexivity.
  - rewrite bool_decide_eq_false_2 by congruence.
    destruct (display_links s' rs) as [a | e]; cbn [mbind Py.result_bind];
      [| reflexivity].
    now rewrite app_nil_r.
Qed.

(** One more video at the end of the list: the link loop does not see it. *)
Lemma display_links_snoc_video s' s url rs :
  display_links s' (rs ++ [{| res_Subject := s; res_Type := "Video";
                              res_Content := url; res_Desc := None |}]) =
    display_links s' rs.
Proof.
  rewrite display_links_app. cbn [display_links res_Type].
  rewrite (bool_decide_eq_false_2 ("Video" = "Link")) by discriminate.
  cbn [andb]. destruct (display_links s' rs) as [a | e];
    cbn [mbind Py.result_bind]; [| reflexivity].
  now rewrite app_nil_r.
Qed.

End Hub.

(** X4: the link loop of the Resource Hub reads [res['Desc']] of every link
    of the selected subject.  It raises, and then always KeyError 'Desc',
    exactly when the resource list holds a link of that subject without a
    description; otherwise it writes one markdown line per link of the
    subject, in store order, and skips the videos and the other subjects. *)
Theorem display_links_raises_iff_missing_Desc (s : string) (rs : list Resource) :
  let missing := fun res =>
    (res_Type res = "Link" /\ res_Subject res = s) /\ res_Desc res = None in
  (display_links s rs = Py.Raise (Py.KeyError "Desc") <-> Exists missing rs)
  /\ (forall e, display_links s rs = Py.Raise e -> e = Py.KeyError "Desc")
  /\ (~ Exists missing rs ->
        display_links s rs =
          Py.Ok (map (fun res => link_markdown (default "" (res_Desc res)) (res_Content res))
                   (filter (fun res => res_Type res = "Link" /\ res_Subject res = s) rs))).
Proof.
  cbv zeta. destruct (links_described_or_not s rs) as [Hall | Hex].
  - pose proof (display_links_filter s rs Hall) as Hok.
    assert (Hno : ~ Exists (fun res =>
              (res_Type res = "Link" /\ res_Subject res = s) /\ res_Desc res = None) rs).
    { rewrite Exists_exists. intros (res & Hin & Hl & Hd).
      rewrite Forall_forall in Hall. destruct (Hall res Hin Hl) as [d Hd']. congruence. }
    split; [| split].
    + split; [rewrite Hok; discriminate | tauto].
    + intros e. rewrite Hok. discriminate.
    + intros _. exact Hok.
  - pose proof (display_links_raises s rs Hex) as Hr.
    split; [| split].
    + tauto.
    + intros e. rewrite Hr. congruence.
    + tauto.
Qed.

(** X5: in every state the script can reach, the link loop never raises:
    the resources in the store are the ones the two buttons wrote, a link
    with a description or a video without one, and the loop asks only links
    for their description.  It then lists exactly the links of the selected
    subject, in the order they were saved. *)
Theorem display_links_never_raises (events : list event) (s : string) :
  Forall well_formed (resources (run events))
  /\ display_links s (resources (run events)) =
       Py.Ok (map (fun res => link_markdown (default "" (res_Desc res)) (res_Content res))
                (filter (fun res => res_Type res = "Link" /\ res_Subject res = s)
                   (resources (run events)))).
Proof.
  pose proof (run_well_formed events) as H. split; [exact H |].
  apply display_links_filter, well_formed_described, H.
Qed.

(** X6: a saved link is listed last under its own subject and nowhere else.
    After Save Link with subject [s], the link loop for [s] gives what it gave
    before followed by the new link's line (and raises if it raised before);
    for every other subject it gives what it gave before, and the video
    loop of every subject does what it did, whatever [st.video] does. *)
Theorem saved_link_is_listed_last
    (s link_url link_desc : string) (st : session_state) :
  let st' := (save_link_button s link_url link_desc st).2 in
  display_links s (resources st') =
    (shown ← display_links s (resources st);
     Py.Ok (shown ++ [link_markdown link_desc link_url]))
  /\ (forall s', s' <> s ->
        display_links s' (resources st') = display_links s' (resources st))
  /\ (forall lib s',
        display_videos lib s' (resources st') = display_videos lib s' (resources st)).
Proof.
  cbv zeta. cbn [save_link_button snd resources]. split; [| split].
  - rewrite display_links_snoc_link. now rewrite decide_True by reflexivity.
  - intros s' Hs'. rewrite display_links_snoc_link. now rewrite decide_False by exact Hs'.
  - intros lib s'. apply display_videos_snoc_link.
Qed.

(** X7: an added video is handed to [st.video] last under its own subject
    and nowhere else.  After Add Video with subject [s] the video loop of
    [s] does what it did before and then hands the new URL to [st.video]:
    it raises if it raised before or if [st.video] rejects the new URL, and
    otherwise shows the videos it showed followed by the new one.  The video
    loop of every other subject does what it did, and so does the link loop
    of every subject, although the new dict has no 'Desc' key. *)
Theorem added_video_is_listed_last
    (lib : streamlit) (s video_url : string) (st : session_state) :
  let st' := add_video_button s video_url st in
  display_videos lib s (resources st') =
    (shown ← display_videos lib s (resources st);
     _ ← st_video lib video_url;
     Py.Ok (shown ++ [video_url]))
  /\ (forall e, display_videos lib s (resources st) = Py.Raise e ->
        display_videos lib s (resources st') = Py.Raise e)
  /\ (forall shown e,
        display_videos lib s (resources st) = Py.Ok shown ->
        st_video lib video_url = Py.Raise e ->
        display_videos lib s (resources st') = Py.Raise e)
  /\ (forall s', s' <> s ->
        display_videos lib s' (resources st') = display_videos lib s' (resources st))
  /\ (forall s', display_links s' (resources st') = display_links s' (resources st)).
Proof.
  cbv zeta. cbn [add_video_button resources].
  assert (Heq : display_videos lib s
            (resources st ++ [{| res_Subject := s; res_Type := "Video";
                                 res_Content := video_url; res_Desc := None |}]) =
          (shown ← display_videos lib s (resources st);
           _ ← st_video lib video_url;
           Py.Ok (shown ++ [video_url]))).
  { rewrite display_videos_snoc_video. now rewrite decide_True by reflexivity. }
  split; [exact Heq |]. split; [| split; [| split]].
  - intros e He. rewrite Heq, He. reflexivity.
  - intros shown e Hs He. rewrite Heq, Hs. cbn [mbind Py.result_bind].
    rewrite He. reflexivity.
  - intros s' Hs'. rewrite display_videos_snoc_video.
    now rewrite decide_False by exact Hs'.
  - intros s'. apply display_links_snoc_video.
Qed.

(** X8: in every reachable state, when [st.video] takes every stored video
    of a subject, each stored resource of that subject is listed in exactly
    one of the two tabs: both loops return, and the number of link lines
    plus the number of videos shown is the number of resources stored with
    that subject. *)
Theorem each_resource_in_one_tab
    (lib : streamlit) (events : list event) (s : string) :
  Forall (fun res => res_Type res = "Video" /\ res_Subject res = s ->
                     st_video lib (res_Content res) = Py.Ok tt)
    (resources (run events)) ->
  exists links videos,
    display_links s (resources (run events)) = Py.Ok links
    /\ display_videos lib s (resources (run events)) = Py.Ok videos
    /\ (length links + length videos)%nat =
         length (filter (fun res => res_Subject res = s) (resources (run events))).
Proof.
  intros Hv. pose proof (run_well_formed events) as H.
  eexists _, _. split; [| split].
  - apply display_links_filter, well_formed_described, H.
  - apply display_videos_filter, Hv.
  - rewrite !length_map. now apply well_formed_partition.
Qed.

(** X8, witness: a link and a video with an https URL, both under "Math". *)
Lemma each_resource_in_one_tab_witness :
  let events := [Click_Save_Link "Math" "https://example.org" "notes";
                 Click_Add_Video "Math" "https://youtu.be/x"] in
  exists links videos,
    display_links "Math" (resources (run events)) = Py.Ok links
    /\ display_videos a_streamlit "Math" (resources (run events)) = Py.Ok videos
    /\ (length links + length videos)%nat =
         length (filter (fun res => res_Subject res = "Math") (resources (run events))).
Proof.
  apply (each_resource_in_one_tab a_streamlit
           [Click_Save_Link "Math" "https://example.org" "notes";
            Click_Add_Video "Math" "https://youtu.be/x"] "Math").
  repeat constructor.
Defined.

(** X9: one run of the Resource Hub page in a reachable state, whatever
    [st.video] and [st.image] do.  The link loop does not raise.  The state
    the run leaves is the state of the clicked button, or the state it was
    given when no button is down, whether or not a later call raises: an
    uploaded file is never stored.  The run raises exactly when the video
    loop over the store it leaves raises, or else when the upload tab does;
    otherwise it lists what the store holds when the run ends, so a link or
    a video appears in the run that saves it, and only Save Link shows a
    confirmation. *)
Theorem resource_hub_page_shows_final_state
    (lib : streamlit) (events : list event) (inp : hub_inputs) :
  let st := run events in
  let st' := match hub_event inp with
             | Some e => step st e
             | None => st
             end in
  exists links,
    display_links (selected_subject inp) (resources st') = Py.Ok links
    /\ (resource_hub_page lib inp st).2 = st'
    /\ (click inp = No_Click -> st' = st)
    /\ (resource_hub_page lib inp st).1 =
         (videos ← display_videos lib (selected_subject inp) (resources st');
          upload ← upload_tab lib (uploaded_file inp);
          Py.Ok {| link_feedback := feedback_of (click inp);
                   shown_links := links;
                   shown_videos := videos;
                   shown_upload := upload |}).
Proof.
  cbv zeta. unfold resource_hub_page, hub_event, feedback_of.
  destruct (run_links_ok events (selected_subject inp)) as [links Hl].
  destruct (click inp) eqn:Hc.
  - exists links. split; [exact Hl |]. rewrite Hl.
    destruct (display_videos lib _ _) as [videos | e]; cbn [mbind Py.result_bind];
      [| auto].
    destruct (upload_tab lib _) as [upload | e]; auto.
  - cbn [step save_link_button snd resources].
    assert (Hl' : display_links (selected_subject inp)
              (resources (run events) ++
                 [{| res_Subject := selected_subject inp; res_Type := "Link";
                     res_Content := link_url inp; res_Desc := Some (link_desc inp) |}]) =
            Py.Ok (links ++ [link_markdown (link_desc inp) (link_url inp)])).
    { rewrite display_links_snoc_link, decide_True, Hl by reflexivity. reflexivity. }
    eexists. split; [exact Hl' |]. rewrite Hl'.
    destruct (display_videos lib _ _) as [videos | e]; cbn [mbind Py.result_bind];
      [| split; [reflexivity | split; [discriminate | reflexivity]]].
    destruct (upload_tab lib _) as [upload | e];
      (split; [reflexivity | split; [discriminate | reflexivity]]).
  - exists links. cbn [step].
    split; [cbn [add_video_button resources]; now rewrite display_links_snoc_video |].
    rewrite Hl.
    destruct (display_videos lib _ _) as [videos | e]; cbn [mbind Py.result_bind];
      [| split; [reflexivity | split; [discriminate | reflexivity]]].
    destruct (upload_tab lib _) as [upload | e];
      (split; [reflexivity | split; [discriminate | reflexivity]]).
Qed.

(** ** Invariants of the store over a run *)

Section Store.

(** What one event can do to the two lists. *)
Lemma step_cases st e :
  step st e = st
  \/ (exists subject chapter topic due_date priority,
        e = Click_Add_Task subject chapter topic due_date priority
        /\ subject <> "" /\ chapter <> ""
        /\ step st e =
             {| tasks := tasks st ++ [new_task subject chapter topic due_date priority];
                resources := resources st |})
  \/ (exists res,
        step st e = {| tasks := tasks st; resources := resources st ++ [res] |}
        /\ well_formed res
        /\ (offered st e -> res_Subject res ∈ hub_subjects st)).
Proof.
  destruct e as [subject chapter topic due_date priority | f edits | s u d | s u | ];
    cbn [step].
  - unfold add_task_button.
    destruct (Py.truthy subject && Py.truthy chapter) eqn:E; cbn [snd]; [| now left].
    right; left. apply andb_true_iff in E as [Hs Hc].
    apply truthy_nonempty in Hs, Hc.
    exists subject, chapter, topic, due_date, priority. auto.
  - left. apply todo_list_keeps_state.
  - right; right. eexists. split; [reflexivity |].
    split; [left; cbn; eauto | intros H; exact H].
  - right; right. eexists. split; [reflexivity |].
    split; [right; cbn; eauto | intros H; exact H].
  - now left.
Qed.

Lemma run_app events1 events2 :
  run (events1 ++ events2) = fold_left step events2 (run events1).
Proof. unfold run. apply fold_left_app. Qed.

Lemma step_grows st e :
  tasks st `prefix_of` tasks (step st e)
  /\ resources st `prefix_of` resources (step st e)
  /\ (length (tasks (step st e)) + length (resources (step st e))
      <= length (tasks st) + length (resources st) + 1)%nat.
Proof.
  destruct (step_cases st e)
    as [-> | [(s & c & tp & d & p & _ & _ & _ & ->) | (res & -> & _)]];
    cbn [tasks resources].
  - split; [reflexivity |]. split; [reflexivity | lia].
  - split; [now apply prefix_app_r |]. split; [reflexivity |].
    rewrite length_app. cbn [length]. lia.
  - split; [reflexivity |]. split; [now apply prefix_app_r |].
    rewrite length_app. cbn [length]. lia.
Qed.

Lemma fold_step_grows events st :
  tasks st `prefix_of` tasks (fold_left step events st)
  /\ resources st `prefix_of` resources (fold_left step events st)
  /\ (length (tasks (fold_left step events st))
      + length (resources (fold_left step events st))
      <= length (tasks st) + length (resources st) + length events)%nat.
Proof.
  revert st. induction events as [| e events IH]; intros st; cbn [fold_left length].
  - split; [reflexivity |]. split; [reflexivity | lia].
  - destruct (IH (step st e)) as (Ht & Hr & Hn).
    destruct (step_grows st e) as (Ht' & Hr' & Hn').
    split; [now transitivity (tasks (step st e)) |].
    split; [now transitivity (resources (step st e)) | lia].
Qed.

Lemma fold_step_filled events st :
  Forall filled (tasks st) -> Forall filled (tasks (fold_left step events st)).
Proof.
  revert st. induction events as [| e events IH]; intros st H; cbn [fold_left];
    [exact H |].
  apply IH.
  destruct (step_cases st e)
    as [-> | [(s & c & tp & d & p & _ & Hs & Hc & ->) | (res & -> & _)]];
    cbn [tasks]; [exact H | | exact H].
  apply Forall_app. split; [exact H |]. constructor; [| constructor].
  split; assumption.
Qed.

Lemma step_from_select_boxes st e :
  offered st e -> from_select_boxes st -> from_select_boxes (step st e).
Proof.
  intros Hoff [Hres Hprio].
  destruct (step_cases st e)
    as [-> | [(s & c & tp & d & p & -> & _ & _ & ->) | (res & -> & _ & Hin)]];
    [now split | |]; split; cbn [tasks resources].
  - intros res Hr. destruct (Hres res Hr) as [Hd | (t & Ht & Hs)]; [now left |].
    right. exists t. split; [apply elem_of_app; now left | exact Hs].
  - intros t Ht. apply elem_of_app in Ht as [Ht | Ht]; [now apply Hprio |].
    apply list_elem_of_singleton in Ht. subst t. exact Hoff.
  - intros res' Hr. apply elem_of_app in Hr as [Hr | Hr]; [now apply Hres |].
    apply list_elem_of_singleton in Hr. subst res'.
    specialize (Hin Hoff). rewrite hub_subjects_eq in Hin.
    destruct (tasks st) as [| t0 l] eqn:E.
    + left. unfold get_subjects in Hin. now rewrite E in Hin.
    + right. rewrite <- E. apply elem_of_get_subjects in Hin; [exact Hin |].
      rewrite E. discriminate.
  - exact Hprio.
Qed.

Lemma fold_step_from_select_boxes events st :
  offered_run st events -> from_select_boxes st ->
  from_select_boxes (fold_left step events st).
Proof.
  revert st. induction events as [| e events IH]; intros st Hoff H; cbn [fold_left];
    [exact H |].
  destruct Hoff as [He Hes]. apply IH; [exact Hes |].
  now apply step_from_select_boxes.
Qed.


End Store.

(** X10: the store only grows, and by at most one item per run of the
    script.  Whatever the user does after a state has been reached, the
    tasks and the resources stored then stay where they are, unchanged and
    in the same order, in front of whatever was added; and the two lists
    together gain at most one item per event. *)
Theorem store_is_append_only (events1 events2 : list event) :
  let st1 := run events1 in
  let st2 := run (events1 ++ events2) in
  tasks st1 `prefix_of` tasks st2
  /\ resources st1 `prefix_of` resources st2
  /\ (length (tasks st2) + length (resources st2)
      <= length (tasks st1) + length (resources st1) + length events2)%nat
  /\ (forall i t, tasks st1 !! i = Some t -> tasks st2 !! i = Some t)
  /\ (forall i res, resources st1 !! i = Some res -> resources st2 !! i = Some res).
Proof.
  cbv zeta. rewrite run_app.
  destruct (fold_step_grows events2 (run events1)) as (Ht & Hr & Hn).
  split; [exact Ht |]. split; [exact Hr |]. split; [exact Hn |]. split.
  - intros i t Hi. eapply prefix_lookup_Some; eassumption.
  - intros i res Hi. eapply prefix_lookup_Some; eassumption.
Qed.

(** X11: every task in a reachable store has a non-empty Subject and a
    non-empty Chapter, since Add Task stores nothing otherwise; so the
    subject list never offers the empty string. *)
Theorem stored_tasks_have_subject_and_chapter (events : list event) :
  (forall t, t ∈ tasks (run events) -> Subject t <> "" /\ Chapter t <> "")
  /\ (forall s, s ∈ get_subjects (run events) -> s <> "").
Proof.
  assert (H : Forall filled (tasks (run events))).
  { apply fold_step_filled. constructor. }
  rewrite Forall_forall in H. split; [exact H |].
  intros s Hs. destruct (tasks (run events)) as [| t0 l] eqn:E.
  - unfold get_subjects in Hs. rewrite E in Hs. unfold default_subjects in Hs.
    intros ->. repeat (apply elem_of_cons in Hs as [Hs | Hs]; [discriminate |]).
    now apply elem_of_nil in Hs.
  - apply elem_of_get_subjects in Hs; [| rewrite E; discriminate].
    destruct Hs as (t & Ht & <-). rewrite E in Ht. now apply H.
Qed.

(** X12: when every event of a run carries values that its select box
    offered at the time, every stored resource is filed under one of the
    four default subjects or under the subject of a stored task, and every
    stored task has priority High, Medium or Low. *)
Theorem stored_values_were_offered (events : list event) :
  offered_run initial_state events ->
  (forall res, res ∈ resources (run events) ->
     res_Subject res ∈ ["Math"; "Physics"; "History"; "Biology"]
     \/ exists t, t ∈ tasks (run events) /\ Subject t = res_Subject res)
  /\ (forall t, t ∈ tasks (run events) -> Priority t ∈ ["High"; "Medium"; "Low"]).
Proof.
  intros Hoff. apply (fold_step_from_select_boxes events initial_state Hoff).
  split; intros x Hx; now apply elem_of_nil in Hx.
Qed.

(** X12, witness: a link saved under the default "Math", a first task with
    subject "Physics", then a video saved under "Physics". *)
Lemma stored_values_were_offered_witness :
  let events := [Click_Save_Link "Math" "https://example.org" "notes";
                 Click_Add_Task "Physics" "Ch1" "" a_date "High";
                 Click_Add_Video "Physics" "https://example.org/v"] in
  (forall res, res ∈ resources (run events) ->
     res_Subject res ∈ ["Math"; "Physics"; "History"; "Biology"]
     \/ exists t, t ∈ tasks (run events) /\ Subject t = res_Subject res)
  /\ (forall t, t ∈ tasks (run events) -> Priority t ∈ ["High"; "Medium"; "Low"]).
Proof.
  apply (stored_values_were_offered
           [Click_Save_Link "Math" "https://example.org" "notes";
            Click_Add_Task "Physics" "Ch1" "" a_date "High";
            Click_Add_Video "Physics" "https://example.org/v"]).
  cbn [offered_run offered]. repeat split;
    apply (bool_decide_unpack _); vm_compute; exact I.
Defined.



(** ** The To-Do list frame *)

Section TodoFrame.
Import Pandas.

Lemma select_status (f : string) (l : list Task) :
  select l (eq_mask (map (fun t => str (Status t)) l) (str f)) =
    filter (fun t => Status t = f) l.
Proof.
  induction l as [| t l IH]; [reflexivity |].
  cbn [map eq_mask select]. fold (eq_mask (map (fun t => str (Status t)) l) (str f)).
  rewrite IH. case_bool_decide as H.
  - rewrite filter_cons_True by congruence. reflexivity.
  - rewrite filter_cons_False by congruence. reflexivity.
Qed.

Lemma filter_frame_nonempty (f : string) (l : list Task) :
  l <> [] ->
  filter_frame f (DataFrame_of l) =
    Py.Ok {| columns := task_keys;
             rows := if decide (f = "All") then l
                     else filter (fun t => Status t = f) l |}.
Proof.
  intros Hne. unfold filter_frame. case_decide as Hf.
  - rewrite getitem_Status by exact Hne. cbn [mbind Py.result_bind].
    rewrite decide_False by exact Hf.
    destruct l as [| t l]; [congruence |].
    unfold getitem_mask. cbn [DataFrame_of columns rows].
    now rewrite select_status.
  - rewrite decide_True by exact Hf.
    destruct l as [| t l]; [congruence | reflexivity].
Qed.

Lemma all_Pending_filter_Pending (l : list Task) :
  all_Pending l -> filter (fun t => Status t = "Pending") l = l.
Proof.
  induction 1 as [| t l Ht _ IH]; [reflexivity |].
  rewrite filter_cons_True by exact Ht. now rewrite IH.
Qed.

Lemma all_Pending_filter_other (f : string) (l : list Task) :
  f <> "Pending" -> all_Pending l -> filter (fun t => Status t = f) l = [].
Proof.
  intros Hf. induction 1 as [| t l Ht _ IH]; [reflexivity |].
  rewrite filter_cons_False by congruence. exact IH.
Qed.

Lemma run_all_Pending (events : list event) : all_Pending (tasks (run events)).
Proof. apply fold_step_all_Pending. constructor. Qed.

End TodoFrame.

(** X14: the frame handed to the task editor.  With no task the page shows
    "No tasks yet" and builds no frame.  With at least one task the filter
    never raises: the frame keeps the six task columns, even when no row is
    left, and its rows are the stored tasks for "All", and otherwise the
    stored tasks whose status is the chosen one, in store order. *)
Theorem todo_frame_rows (filter_status : string) (st : session_state) :
  (tasks st = [] ->
     todo_frame filter_status st = inl (st_info "No tasks yet. Add one above!"))
  /\ (tasks st <> [] ->
        todo_frame filter_status st =
          inr (Py.Ok {| Pandas.columns := Pandas.task_keys;
                        Pandas.rows := list_tasks filter_status st |}))
  /\ list_tasks filter_status st `sublist_of` tasks st
  /\ (filter_status <> "All" ->
        forall t, t ∈ list_tasks filter_status st <->
                  t ∈ tasks st /\ Status t = filter_status)
  /\ list_tasks "All" st = tasks st.
Proof.
  split; [| split; [| split; [| split]]].
  - intros E. unfold todo_frame. now rewrite E.
  - intros Hne. unfold todo_frame, list_tasks.
    rewrite <- (filter_frame_nonempty filter_status (tasks st) Hne).
    destruct (tasks st); [congruence | reflexivity].
  - unfold list_tasks. case_decide; [reflexivity | apply sublist_filter].
  - intros Hf t. unfold list_tasks. rewrite decide_False by exact Hf.
    rewrite list_elem_of_filter. tauto.
  - reflexivity.
Qed.

(** X15: in every state the script can reach, the status filter of the
    To-Do list has nothing to tell apart: "Pending" shows every stored task,
    "Done" shows none, since no stored status is ever anything but
    "Pending"; with at least one task, the "Done" frame has the six columns
    and no row. *)
Theorem reachable_filters_show_all_or_nothing (events : list event) :
  let st := run events in
  list_tasks "Pending" st = tasks st
  /\ list_tasks "All" st = tasks st
  /\ list_tasks "Done" st = []
  /\ (tasks st <> [] ->
        todo_frame "Done" st =
          inr (Py.Ok {| Pandas.columns := Pandas.task_keys; Pandas.rows := [] |})).
Proof.
  cbv zeta. pose proof (run_all_Pending events) as H.
  assert (Hd : list_tasks "Done" (run events) = []).
  { unfold list_tasks. rewrite decide_False by discriminate.
    apply all_Pending_filter_other; [discriminate | exact H]. }
  split; [| split; [reflexivity | split; [exact Hd |]]].
  - unfold list_tasks. rewrite decide_False by discriminate.
    now apply all_Pending_filter_Pending.
  - intros Hne. unfold todo_frame.
    destruct (tasks (run events)) as [| t l] eqn:E; [congruence |].
    rewrite filter_frame_nonempty by discriminate.
    rewrite decide_False by discriminate.
    unfold list_tasks in Hd. rewrite decide_False, E in Hd by discriminate.
    now rewrite Hd.
Qed.

(** ** The dashboard: charts and KPIs together *)

Section Charts.
Import Pandas.

Lemma total_count_cons p rows : total_count (p :: rows) = snd p + total_count rows.
Proof. reflexivity. Qed.

Lemma total_count_count_value v acc :
  total_count (count_value v acc) = total_count acc + 1.
Proof.
  induction acc as [| [k n] acc IH]; cbn [count_value]; [reflexivity |].
  case_decide; rewrite !total_count_cons; cbn [snd]; [lia | rewrite IH; lia].
Qed.

Lemma total_count_tally (s : Series) : total_count (tally s) = Py.len s.
Proof.
  unfold Py.len. induction s as [| v s IH] using rev_ind; [reflexivity |].
  rewrite tally_snoc, total_count_count_value, IH, length_app. cbn [length]. lia.
Qed.

Lemma total_count_insert_desc p rows :
  total_count (insert_desc p rows) = snd p + total_count rows.
Proof.
  induction rows as [| q rows IH]; cbn [insert_desc]; [reflexivity |].
  destruct (snd p <? snd q); rewrite !total_count_cons; [rewrite IH; lia | reflexivity].
Qed.

Lemma total_count_sort_desc rows : total_count (sort_desc rows) = total_count rows.
Proof.
  induction rows as [| p rows IH]; [reflexivity |].
  cbn [sort_desc fold_right]. fold (sort_desc rows).
  rewrite total_count_insert_desc, IH. reflexivity.
Qed.

(** The Count column of a chart adds up to the number of rows counted. *)
Lemma total_count_value_counts (s : Series) :
  total_count (value_counts s) = Py.len s.
Proof. unfold value_counts. now rewrite total_count_sort_desc, total_count_tally. Qed.

Lemma value_counts_positive (s : Series) k n : (k, n) ∈ value_counts s -> 1 <= n.
Proof.
  intros H. destruct (value_counts_spec s) as (_ & _ & Hin & _).
  apply Hin in H as [Hk ->]. now apply occurrences_pos.
Qed.

(** A column that holds one value only gives one row. *)
Lemma tally_constant (v : value) (s : Series) :
  s <> [] -> Forall (fun x => x = v) s -> tally s = [(v, Py.len s)].
Proof.
  unfold Py.len. induction s as [| x s IH] using rev_ind; [congruence |].
  intros _ H. apply Forall_app in H as [Hs Hx].
  inversion Hx as [| ? ? Hxv _]. subst x.
  rewrite tally_snoc, length_app. cbn [length].
  destruct s as [| y s]; [reflexivity |].
  rewrite IH by (congruence || exact Hs). cbn [count_value].
  rewrite decide_True by reflexivity. do 3 f_equal. lia.
Qed.

Lemma occurrences_Done (l : list Task) :
  Spec.occurrences (str "Done") (map (fun t => str (Status t)) l) = Spec.count_done l.
Proof.
  unfold Spec.occurrences, Spec.count_done. f_equal.
  induction l as [| t l IH]; [reflexivity |]. cbn [map].
  destruct (decide (Status t = "Done")) as [Hd | Hd].
  - rewrite !filter_cons_True by congruence. cbn [length]. now rewrite IH.
  - rewrite !filter_cons_False by congruence. exact IH.
Qed.

Lemma count_done_all_Pending (l : list Task) : all_Pending l -> Spec.count_done l = 0.
Proof.
  intros H. unfold Spec.count_done.
  now rewrite all_Pending_filter_other by (discriminate || exact H).
Qed.

Lemma completion_rate_of_none (t : Z) : completion_rate_of 0 t = Py.Ok 0.
Proof.
  unfold completion_rate_of. destruct t as [| p | p]; reflexivity.
Qed.

Lemma len_pos {A} (l : list A) : l <> [] -> 0 < Py.len l.
Proof. destruct l; [congruence |]. unfold Py.len. cbn [length]. lia. Qed.

(** The two charts of a non-empty store. *)
Lemma dashboard_nonempty (st : session_state) (k : Kpis) :
  tasks st <> [] ->
  compute_kpis (DataFrame_of (tasks st)) = Py.Ok k ->
  dashboard st =
    Py.Ok (Real_View k
             (value_counts (map (fun t => str (Subject t)) (tasks st)))
             (value_counts (map (fun t => str (Status t)) (tasks st)))).
Proof.
  intros Hne Hk. unfold dashboard.
  destruct (tasks st) as [| t l] eqn:E; [congruence |].
  rewrite Hk. cbn [mbind Py.result_bind]. unfold subj_counts, status_counts.
  rewrite getitem_Subject, getitem_Status by discriminate. reflexivity.
Qed.

(** The number of tasks that are not Done. *)
Lemma count_not_done (l : list Task) :
  Z.of_nat (length (filter (fun t => Status t <> "Done") l)) =
    Py.len l - Spec.count_done l.
Proof.
  unfold Py.len, Spec.count_done.
  induction l as [| t l IH]; [reflexivity |].
  destruct (decide (Status t = "Done")) as [Hd | Hd].
  - rewrite filter_cons_False by tauto. rewrite filter_cons_True by exact Hd.
    cbn [length]. lia.
  - rewrite filter_cons_True by exact Hd. rewrite filter_cons_False by exact Hd.
    cbn [length]. lia.
Qed.

(** Every task is Done exactly when the Done count is the number of
    tasks. *)
Lemma count_done_all (l : list Task) :
  Spec.count_done l = Py.len l <-> Forall (fun t => Status t = "Done") l.
Proof.
  unfold Spec.count_done, Py.len. induction l as [| a l IH].
  - split; [constructor | reflexivity].
  - pose proof (length_filter (fun t => Status t = "Done") l) as Hle.
    destruct (decide (Status a = "Done")) as [Hd | Hd].
    + rewrite filter_cons_True by exact Hd. cbn [length]. split.
      * intros Heq. constructor; [exact Hd |]. apply IH. lia.
      * intros Hall. apply Forall_cons in Hall as [_ Hall]. apply IH in Hall. lia.
    + rewrite filter_cons_False by exact Hd. cbn [length]. split.
      * intros Heq. lia.
      * intros Hall. apply Forall_cons in Hall as [Ha _]. contradiction.
Qed.

End Charts.

(** X16: in every reachable state with at least one task the dashboard
    shows Completion Rate 0, Completed 0 and Pending equal to the number of
    tasks, and the status chart has the single row ("Pending", number of
    tasks): no stored status is ever "Done".  This holds for any number of
    tasks, and the dashboard does not raise. *)
Theorem reachable_dashboard_shows_zero_percent (events : list event) :
  tasks (run events) <> [] ->
  let n := Py.len (tasks (run events)) in
  exists bar,
    dashboard (run events) =
      Py.Ok (Real_View
               {| total_tasks := n; completed := 0; pending := n; completion_rate := 0 |}
               bar [(Pandas.str "Pending", n)])
    /\ total_count bar = n.
Proof.
  intros Hne. cbv zeta. pose proof (run_all_Pending events) as HP.
  eexists. split.
  - rewrite (dashboard_nonempty (run events)
               {| total_tasks := Py.len (tasks (run events)); completed := 0;
                  pending := Py.len (tasks (run events)); completion_rate := 0 |} Hne).
    + do 2 f_equal. unfold Pandas.value_counts.
      rewrite tally_constant with (v := Pandas.str "Pending").
      * unfold Py.len. now rewrite length_map.
      * destruct (tasks (run events)); [congruence | discriminate].
      * apply Forall_map. eapply Forall_impl; [exact HP |].
        cbn. intros t Ht. now rewrite Ht.
    + unfold compute_kpis. rewrite task_counts_nonempty by exact Hne.
      cbn [mbind Py.result_bind].
      rewrite count_done_all_Pending by exact HP.
      rewrite completion_rate_of_none. cbn [mbind Py.result_bind].
      now rewrite Z.sub_0_r.
  - rewrite total_count_value_counts. unfold Py.len. now rewrite length_map.
Qed.

(** X16, witness: the state after one task has been added. *)
Lemma reachable_dashboard_shows_zero_percent_witness :
  let events := [Click_Add_Task "Math" "Ch1" "" a_date "High"] in
  let n := Py.len (tasks (run events)) in
  exists bar,
    dashboard (run events) =
      Py.Ok (Real_View
               {| total_tasks := n; completed := 0; pending := n; completion_rate := 0 |}
               bar [(Pandas.str "Pending", n)])
    /\ total_count bar = n.
Proof.
  apply (reachable_dashboard_shows_zero_percent
           [Click_Add_Task "Math" "Ch1" "" a_date "High"]).
  discriminate.
Defined.

(** X17: on a store of at least one and fewer than [2 ^ 44] tasks, whatever
    their statuses, the dashboard does not raise and shows the real view;
    each of its two charts counts every task once: the counts of the
    subject chart add up to the number of tasks, and so do the counts of the
    status chart, and no row of either chart has a count below 1. *)
Theorem dashboard_charts_count_every_task (st : session_state) :
  tasks st <> [] -> Py.len (tasks st) < 2 ^ 44 ->
  exists k bar pie,
    dashboard st = Py.Ok (Real_View k bar pie)
    /\ total_tasks k = Py.len (tasks st)
    /\ total_count bar = total_tasks k
    /\ total_count pie = total_tasks k
    /\ (forall v n, (v, n) ∈ bar \/ (v, n) ∈ pie -> 1 <= n <= total_tasks k).
Proof.
  intros Hne Hlen.
  destruct (compute_kpis_nonempty (tasks st) Hne Hlen) as (r & Hk & _).
  eexists _, _, _. split; [apply (dashboard_nonempty st _ Hne Hk) |].
  cbn [total_tasks]. split; [reflexivity |].
  assert (Hlen' : forall f : Task -> Pandas.value, Py.len (map f (tasks st)) = Py.len (tasks st)).
  { intros f. unfold Py.len. now rewrite length_map. }
  split; [now rewrite total_count_value_counts |].
  split; [now rewrite total_count_value_counts |].
  assert (Hrow : forall (s : Pandas.Series) v n,
            (v, n) ∈ Pandas.value_counts s -> 1 <= n <= Py.len s).
  { intros s v n Hin. split; [eapply value_counts_positive; eassumption |].
    rewrite <- (total_count_value_counts s).
    clear - Hin. pose proof (value_counts_positive s) as Hpos.
    induction (Pandas.value_counts s) as [| [k m] rows IH]; [now apply elem_of_nil in Hin |].
    rewrite total_count_cons. cbn [snd].
    assert (0 <= total_count rows).
    { clear - Hpos. induction rows as [| [k' m'] rows IH]; [reflexivity |].
      rewrite total_count_cons. cbn [snd].
      assert (1 <= m') by (apply (Hpos k'); right; left).
      assert (0 <= total_count rows).
      { apply IH. intros k2 n2 H2. apply (Hpos k2).
        apply elem_of_cons in H2 as [[= -> ->] | H2]; [left | right; now right]. }
      lia. }
    apply elem_of_cons in Hin as [[= -> ->] | Hin]; [lia |].
    assert (1 <= m) by (apply (Hpos k); left).
    assert (n <= total_count rows).
    { apply IH; [exact Hin |]. intros k2 n2 H2. apply (Hpos k2). now right. }
    lia. }
  intros v n [Hin | Hin]; apply Hrow in Hin; now rewrite Hlen' in Hin.
Qed.

(** X17, witness: three tasks, two subjects, two statuses. *)
Lemma dashboard_charts_count_every_task_witness :
  let st := {| tasks := [set_Status "Done" (new_task "Math" "c1" "" a_date "Low");
                         new_task "Physics" "c2" "" a_date "Low";
                         new_task "Math" "c3" "" a_date "High"];
               resources := [] |} in
  exists k bar pie,
    dashboard st = Py.Ok (Real_View k bar pie)
    /\ total_tasks k = Py.len (tasks st)
    /\ total_count bar = total_tasks k
    /\ total_count pie = total_tasks k
    /\ (forall v n, (v, n) ∈ bar \/ (v, n) ∈ pie -> 1 <= n <= total_tasks k).
Proof.
  apply (dashboard_charts_count_every_task
           {| tasks := [set_Status "Done" (new_task "Math" "c1" "" a_date "Low");
                        new_task "Physics" "c2" "" a_date "Low";
                        new_task "Math" "c3" "" a_date "High"];
              resources := [] |}).
  - discriminate.
  - reflexivity.
Defined.

(** X18: the status chart and the KPI row agree.  Whenever the dashboard
    shows the real view, the status chart has a "Done" row exactly when the
    Completed metric is above 0, and that row's count is the Completed
    metric; the counts of all its rows add up to Completed plus Pending. *)
Theorem pie_Done_row_is_completed
    (st : session_state) (k : Kpis) (bar pie : list (Pandas.value * Z)) :
  dashboard st = Py.Ok (Real_View k bar pie) ->
  (forall n, (Pandas.str "Done", n) ∈ pie <-> n = completed k /\ 0 < completed k)
  /\ total_count pie = completed k + pending k.
Proof.
  intros Hd. unfold dashboard in Hd.
  destruct (tasks st) as [| t0 l0] eqn:E; [discriminate |].
  cbv beta iota zeta in Hd. remember (t0 :: l0) as l eqn:El.
  assert (Hne : l <> []) by (subst l; discriminate).
  unfold compute_kpis in Hd. rewrite task_counts_nonempty in Hd by exact Hne.
  cbn [mbind Py.result_bind] in Hd.
  destruct (completion_rate_of _ _) as [r | e]; cbn [mbind Py.result_bind] in Hd;
    [| discriminate].
  unfold subj_counts, status_counts in Hd.
  rewrite getitem_Subject, getitem_Status in Hd by exact Hne.
  cbn [mbind Py.result_bind] in Hd. injection Hd as <- <- <-.
  cbn [completed pending]. split.
  - intros n.
    destruct (value_counts_spec (map (fun t => Pandas.str (Status t)) l))
      as (_ & _ & Hin & _).
    rewrite Hin, occurrences_Done. split.
    + intros [Hk ->]. split; [reflexivity |].
      apply occurrences_pos in Hk. rewrite occurrences_Done in Hk. lia.
    + intros [-> Hpos]. split; [| reflexivity].
      destruct (decide (Pandas.str "Done" ∈ map (fun t => Pandas.str (Status t)) l))
        as [Hk | Hk]; [exact Hk |].
      apply occurrences_absent in Hk. rewrite occurrences_Done in Hk. lia.
  - rewrite total_count_value_counts. unfold Py.len. rewrite length_map. lia.
Qed.

(** X18, witness: one task Done, one Pending, one In Progress. *)
Lemma pie_Done_row_is_completed_witness :
  let st := {| tasks := [set_Status "Done" (new_task "Math" "c1" "" a_date "Low");
                         new_task "Math" "c2" "" a_date "Low";
                         set_Status "In Progress" (new_task "Math" "c3" "" a_date "Low")];
               resources := [] |} in
  let k := {| total_tasks := 3; completed := 1; pending := 2; completion_rate := 33 |} in
  let bar := [(Pandas.str "Math", 3)] in
  let pie := [(Pandas.str "Done", 1); (Pandas.str "Pending", 1);
              (Pandas.str "In Progress", 1)] in
  dashboard st = Py.Ok (Real_View k bar pie)
  /\ (forall n, (Pandas.str "Done", n) ∈ pie <-> n = completed k /\ 0 < completed k)
  /\ total_count pie = completed k + pending k.
Proof.
  assert (H : dashboard
            {| tasks := [set_Status "Done" (new_task "Math" "c1" "" a_date "Low");
                         new_task "Math" "c2" "" a_date "Low";
                         set_Status "In Progress" (new_task "Math" "c3" "" a_date "Low")];
               resources := [] |} =
          Py.Ok (Real_View
                   {| total_tasks := 3; completed := 1; pending := 2;
                      completion_rate := 33 |}
                   [(Pandas.str "Math", 3)]
                   [(Pandas.str "Done", 1); (Pandas.str "Pending", 1);
                    (Pandas.str "In Progress", 1)]))
    by (vm_compute; reflexivity).
  split; [exact H |]. exact (pie_Done_row_is_completed _ _ _ _ H).
Defined.

(** X19: the subject chart and the subject list agree.  On a non-empty
    store the subject chart has exactly one row per subject that
    [get_subjects] returns: the same subjects, each once, possibly in
    another order. *)
Theorem bar_chart_subjects_are_get_subjects (st : session_state) :
  tasks st <> [] ->
  exists bar,
    subj_counts (Pandas.DataFrame_of (tasks st)) = Py.Ok bar
    /\ map fst bar ≡ₚ map Pandas.str (get_subjects st)
    /\ length bar = length (get_subjects st).
Proof.
  intros Hne. unfold subj_counts. rewrite getitem_Subject by exact Hne.
  cbn [mbind Py.result_bind]. eexists. split; [reflexivity |].
  set (s := map (fun t => Pandas.str (Subject t)) (tasks st)).
  destruct (value_counts_spec s) as (_ & Hnd & Hin & _).
  assert (Hperm : map fst (Pandas.value_counts s) ≡ₚ map Pandas.str (get_subjects st)).
  { apply NoDup_Permutation; [exact Hnd | |].
    - apply NoDup_fmap_2; [intros x y [=]; assumption | apply NoDup_get_subjects].
    - intros v. rewrite !list_elem_of_fmap. split.
      + intros ([v' n] & -> & Hvn). apply Hin in Hvn as [Hv _]. cbn [fst].
        unfold s in Hv. apply list_elem_of_fmap in Hv as (t & -> & Ht).
        exists (Subject t). split; [reflexivity |].
        apply elem_of_get_subjects; [exact Hne | eauto].
      + intros (x & -> & Hx). apply elem_of_get_subjects in Hx as (t & Ht & <-);
          [| exact Hne].
        exists (Pandas.str (Subject t), Spec.occurrences (Pandas.str (Subject t)) s).
        split; [reflexivity |]. apply Hin. split; [| reflexivity].
        unfold s. apply list_elem_of_fmap. eauto. }
  split; [exact Hperm |].
  apply Permutation_length in Hperm. now rewrite !length_map in Hperm.
Qed.

(** X19, witness: three tasks over two subjects. *)
Lemma bar_chart_subjects_are_get_subjects_witness :
  let st := {| tasks := [new_task "B" "c" "" a_date "Low";
                         new_task "A" "c" "" a_date "Low";
                         new_task "B" "d" "" a_date "Low"];
               resources := [] |} in
  exists bar,
    subj_counts (Pandas.DataFrame_of (tasks st)) = Py.Ok bar
    /\ map fst bar ≡ₚ map Pandas.str (get_subjects st)
    /\ length bar = length (get_subjects st).
Proof.
  apply (bar_chart_subjects_are_get_subjects
           {| tasks := [new_task "B" "c" "" a_date "Low";
                        new_task "A" "c" "" a_date "Low";
                        new_task "B" "d" "" a_date "Low"];
              resources := [] |}).
  discriminate.
Defined.

(** X20: on a store of at least one and fewer than [2 ^ 44] tasks the
    Completion Rate is a whole number between 0 and 100, and it is 100
    exactly when no task is pending: the dashboard never shows 100 while a
    task is not Done. *)
Theorem completion_rate_is_100_only_when_all_done (l : list Task) :
  l <> [] -> Py.len l < 2 ^ 44 ->
  exists k,
    compute_kpis (Pandas.DataFrame_of l) = Py.Ok k
    /\ 0 <= completion_rate k <= 100
    /\ (completion_rate k = 100 <-> pending k = 0)
    /\ (completion_rate k = 100 <-> Forall (fun t => Status t = "Done") l).
Proof.
  intros Hne Hlen.
  destruct (compute_kpis_nonempty l Hne Hlen) as (r & Hk & Hr).
  eexists. split; [exact Hk |]. cbn [completion_rate pending].
  pose proof (len_pos l Hne) as Hpos.
  pose proof (count_done_bounds l) as Hc.
  destruct (completion_rate_of_bounds (Spec.count_done l) (Py.len l))
    as (r' & Hr' & Hb & Hex); [exact Hc | lia |].
  assert (r' = r) as -> by congruence.
  set (c := Spec.count_done l) in *. set (t := Py.len l) in *.
  assert (Hq : 100 * c / t <= 100).
  { apply Z.div_le_upper_bound; lia. }
  assert (H100 : r = 100 <-> c = t).
  { split.
    - intros ->. assert (100 <= 100 * c / t) by lia.
      assert (t * 100 <= 100 * c).
      { transitivity (t * (100 * c / t)); [apply Z.mul_le_mono_nonneg_l; lia |].
        apply Z.mul_div_le. lia. }
      lia.
    - intros Hall. rewrite Hall, completion_rate_of_all in Hr by lia.
      congruence. }
  assert (H0 : 0 <= r).
  { destruct (Z.eq_dec c 0) as [Hc0 | Hc0].
    - assert (Hr0 : completion_rate_of 0 t = Py.Ok r) by (rewrite <- Hc0; exact Hr).
      rewrite completion_rate_of_none in Hr0. injection Hr0 as <-. lia.
    - assert (0 <= 100 * c / t) by (apply Z.div_pos; lia).
      destruct (Z.eq_dec ((100 * c) mod t) 0) as [Hm | Hm].
      + assert (100 * c = t * (100 * c / t)).
        { pose proof (Z.div_mod (100 * c) t). lia. }
        assert (1 <= 100 * c / t) by nia. lia.
      + rewrite (Hex Hm). lia. }
  split; [lia |]. split; [rewrite H100; lia |].
  rewrite H100. apply count_done_all.
Qed.

(** X20, witness: two of three tasks Done. *)
Lemma completion_rate_is_100_only_when_all_done_witness :
  let l := [set_Status "Done" (new_task "Math" "c1" "" a_date "Low");
            set_Status "Done" (new_task "Math" "c2" "" a_date "Low");
            new_task "Math" "c3" "" a_date "Low"] in
  exists k,
    compute_kpis (Pandas.DataFrame_of l) = Py.Ok k
    /\ 0 <= completion_rate k <= 100
    /\ (completion_rate k = 100 <-> pending k = 0)
    /\ (completion_rate k = 100 <-> Forall (fun t => Status t = "Done") l).
Proof.
  apply (completion_rate_is_100_only_when_all_done
           [set_Status "Done" (new_task "Math" "c1" "" a_date "Low");
            set_Status "Done" (new_task "Math" "c2" "" a_date "Low");
            new_task "Math" "c3" "" a_date "Low"]).
  - discriminate.
  - reflexivity.
Defined.

(** X21: the Pending Tasks metric counts every task that is not Done,
    whatever its status ("In Progress" included).  On a store of at least one
    and fewer than [2 ^ 44] tasks the KPI block returns a record whose
    [pending] is the number of tasks with a status other than "Done". *)
Theorem pending_counts_every_task_not_done (l : list Task) :
  l <> [] -> Py.len l < 2 ^ 44 ->
  exists k,
    compute_kpis (Pandas.DataFrame_of l) = Py.Ok k
    /\ pending k = Z.of_nat (length (filter (fun t => Status t <> "Done") l))
    /\ completed k = Z.of_nat (length (filter (fun t => Status t = "Done") l)).
Proof.
  intros Hne Hlen.
  destruct (compute_kpis_nonempty l Hne Hlen) as (r & Hk & _).
  eexists. split; [exact Hk |]. cbn [pending completed].
  split; [now rewrite count_not_done | reflexivity].
Qed.

(** X21, witness: one task Done, one Pending, one In Progress. *)
Lemma pending_counts_every_task_not_done_witness :
  let l := [set_Status "Done" (new_task "Math" "c1" "" a_date "Low");
            new_task "Math" "c2" "" a_date "Low";
            set_Status "In Progress" (new_task "Math" "c3" "" a_date "Low")] in
  exists k,
    compute_kpis (Pandas.DataFrame_of l) = Py.Ok k
    /\ pending k = Z.of_nat (length (filter (fun t => Status t <> "Done") l))
    /\ completed k = Z.of_nat (length (filter (fun t => Status t = "Done") l)).
Proof.
  apply (pending_counts_every_task_not_done
           [set_Status "Done" (new_task "Math" "c1" "" a_date "Low");
            new_task "Math" "c2" "" a_date "Low";
            set_Status "In Progress" (new_task "Math" "c3" "" a_date "Low")]).
  - discriminate.
  - reflexivity.
Defined.

(** ** The store as a log of the clicks *)

Section Log.

Lemma fold_step_log events st :
  tasks (fold_left step events st) = tasks st ++ omap stored_task events
  /\ resources (fold_left step events st) = resources st ++ omap stored_resource events.
Proof.
  revert st. induction events as [| e events IH]; intros st;
    cbn [fold_left omap list_omap].
  - now rewrite !app_nil_r.
  - destruct (IH (step st e)) as [-> ->].
    destruct e as [subject chapter topic due_date priority | f edits | s u d | s u | ];
      cbn [step stored_task stored_resource].
    + unfold add_task_button.
      destruct (Py.truthy subject && Py.truthy chapter); cbn [snd tasks resources];
        [| now split].
      now rewrite <- app_assoc.
    + now rewrite todo_list_keeps_state.
    + cbn [save_link_button snd tasks resources]. now rewrite <- app_assoc.
    + cbn [add_video_button tasks resources]. now rewrite <- app_assoc.
    + now split.
Qed.

End Log.

(** X22: the store is the log of what was submitted.  After any run the
    task list holds, in the order of the clicks, one task per Add Task click
    that had a non-empty subject and chapter, and the resource list one
    resource per Save Link or Add Video click; nothing is merged or dropped,
    so a link saved twice is stored and listed twice. *)
Theorem store_is_the_log_of_clicks (events : list event) :
  tasks (run events) = omap stored_task events
  /\ resources (run events) = omap stored_resource events
  /\ (forall s url desc,
        let e := Click_Save_Link s url desc in
        resources (run (events ++ [e; e])) =
          resources (run events) ++
            [{| res_Subject := s; res_Type := "Link";
                res_Content := url; res_Desc := Some desc |};
             {| res_Subject := s; res_Type := "Link";
                res_Content := url; res_Desc := Some desc |}]).
Proof.
  destruct (fold_step_log events initial_state) as [Ht Hr].
  split; [exact Ht |]. split; [exact Hr |].
  intros s url desc. cbv zeta. rewrite run_app.
  destruct (fold_step_log
              [Click_Save_Link s url desc; Click_Save_Link s url desc] (run events))
    as [_ ->].
  reflexivity.
Qed.

(** ** The dashboard does not depend on the order of the tasks *)

Section Order.
Import Pandas.

Lemma occurrences_perm k (s s' : Series) :
  s ≡ₚ s' -> Spec.occurrences k s = Spec.occurrences k s'.
Proof. intros H. unfold Spec.occurrences. now rewrite H. Qed.

Lemma count_done_perm (l l' : list Task) :
  l ≡ₚ l' -> Spec.count_done l = Spec.count_done l'.
Proof. intros H. unfold Spec.count_done. now rewrite H. Qed.

Lemma first_seen_counts_perm (s s' : Series) :
  s ≡ₚ s' -> Spec.first_seen_counts s ≡ₚ Spec.first_seen_counts s'.
Proof.
  intros H. unfold Spec.first_seen_counts.
  rewrite (map_ext _ (fun k => (k, Spec.occurrences k s')))
    by (intros k; now rewrite (occurrences_perm k s s' H)).
  apply fmap_Permutation.
  apply NoDup_Permutation; [apply NoDup_first_seen | apply NoDup_first_seen |].
  intros x. rewrite !elem_of_first_seen. now rewrite H.
Qed.

Lemma value_counts_perm (s s' : Series) :
  s ≡ₚ s' -> value_counts s ≡ₚ value_counts s'.
Proof.
  intros H.
  destruct (value_counts_spec s) as (Hs & _).
  destruct (value_counts_spec s') as (Hs' & _).
  rewrite Hs, Hs'. now apply first_seen_counts_perm.
Qed.

End Order.

(** X23: the dashboard figures do not depend on the order in which the
    tasks were added.  Two task lists that hold the same tasks in different
    orders give the same KPI row (or the same exception), and each chart
    has the same rows, possibly in another order. *)
Theorem dashboard_ignores_task_order (l l' : list Task) :
  l ≡ₚ l' ->
  compute_kpis (Pandas.DataFrame_of l) = compute_kpis (Pandas.DataFrame_of l')
  /\ (forall bar bar',
        subj_counts (Pandas.DataFrame_of l) = Py.Ok bar ->
        subj_counts (Pandas.DataFrame_of l') = Py.Ok bar' -> bar ≡ₚ bar')
  /\ (forall pie pie',
        status_counts (Pandas.DataFrame_of l) = Py.Ok pie ->
        status_counts (Pandas.DataFrame_of l') = Py.Ok pie' -> pie ≡ₚ pie').
Proof.
  intros H. destruct (decide (l = [])) as [-> | Hne].
  - apply Permutation_nil_l in H. subst l'. repeat split; discriminate.
  - assert (Hne' : l' <> []).
    { intros ->. now apply Permutation_nil_r in H. }
    split; [| split].
    + unfold compute_kpis. rewrite !task_counts_nonempty by assumption.
      unfold Py.len. now rewrite (count_done_perm _ _ H), (Permutation_length H).
    + intros bar bar'. unfold subj_counts.
      rewrite !getitem_Subject by assumption. cbn [mbind Py.result_bind].
      intros [= <-] [= <-]. apply value_counts_perm. now apply fmap_Permutation.
    + intros pie pie'. unfold status_counts.
      rewrite !getitem_Status by assumption. cbn [mbind Py.result_bind].
      intros [= <-] [= <-]. apply value_counts_perm. now apply fmap_Permutation.
Qed.

(** X23, witness: two tasks in both orders. *)
Lemma dashboard_ignores_task_order_witness :
  let l := [set_Status "Done" (new_task "Math" "c1" "" a_date "Low");
            new_task "Physics" "c2" "" a_date "Low"] in
  let l' := [new_task "Physics" "c2" "" a_date "Low";
             set_Status "Done" (new_task "Math" "c1" "" a_date "Low")] in
  compute_kpis (Pandas.DataFrame_of l) = compute_kpis (Pandas.DataFrame_of l')
  /\ (forall bar bar',
        subj_counts (Pandas.DataFrame_of l) = Py.Ok bar ->
        subj_counts (Pandas.DataFrame_of l') = Py.Ok bar' -> bar ≡ₚ bar')
  /\ (forall pie pie',
        status_counts (Pandas.DataFrame_of l) = Py.Ok pie ->
        status_counts (Pandas.DataFrame_of l') = Py.Ok pie' -> pie ≡ₚ pie').
Proof.
  apply (dashboard_ignores_task_order
           [set_Status "Done" (new_task "Math" "c1" "" a_date "Low");
            new_task "Physics" "c2" "" a_date "Low"]
           [new_task "Physics" "c2" "" a_date "Low";
            set_Status "Done" (new_task "Math" "c1" "" a_date "Low")]).
  apply perm_swap.
Defined.
